(** * add_segid.py: fixed-column PDB records and segment-id assignment

    A shallow embedding of [src/add_segid.py] (Python 2): the record class
    [pdb_line] with its two serialisers, the relevant-line reader, the
    automatic segmentation engine [make_compatible] and the range engine
    [make_segid], followed by the properties established about them. *)

From Stdlib Require Import ZArith List Bool Ascii String Lia.
From Stdlib Require Import Decimal DecimalPos DecimalString.
From Stdlib Require Import PrimFloat Uint63.
Import ListNotations.

#[local] Open Scope string_scope.
#[local] Open Scope Z_scope.

(** ** Python string primitives *)

(** The line terminator, Python's ["\n"]. *)
Definition nl : string := String (ascii_of_nat 10) EmptyString.

(** [" " * n] *)
Fixpoint spaces (n : nat) : string :=
  match n with
  | O => EmptyString
  | S k => String " " (spaces k)
  end.

(** [s[i:j]] for non-negative [i] and [j]: clipped at the end of [s], empty
    when [j <= i]. *)
Definition slice (s : string) (i j : nat) : string := substring i (j - i) s.

(** [read_string(line,start,end=0)]: columns [start..end], counted from 1.
    Every call in the source passes [start >= 1]. *)
Definition read_string (line : string) (start end_ : nat) : string :=
  let e := if Nat.eqb end_ 0 then start else end_ in
  slice line (start - 1) e.

(** [c.isspace()] on a byte string in the C locale. *)
Definition is_space (c : ascii) : bool :=
  let n := nat_of_ascii c in
  (Nat.eqb n 32 || (Nat.leb 9 n && Nat.leb n 13))%bool.

(** [c.isalpha()] for one byte in the C locale. *)
Definition is_alpha (c : ascii) : bool :=
  let n := nat_of_ascii c in
  ((Nat.leb 65 n && Nat.leb n 90) || (Nat.leb 97 n && Nat.leb n 122))%bool.

Definition is_digit (c : ascii) : bool :=
  let n := nat_of_ascii c in (Nat.leb 48 n && Nat.leb n 57)%bool.

Fixpoint all_chars (p : ascii -> bool) (s : string) : bool :=
  match s with
  | EmptyString => true
  | String c r => (p c && all_chars p r)%bool
  end.

(** [s.isalpha()]: false on the empty string. *)
Definition isalpha (s : string) : bool :=
  match s with
  | EmptyString => false
  | _ => all_chars is_alpha s
  end.

Fixpoint lstrip (s : string) : string :=
  match s with
  | EmptyString => EmptyString
  | String c r => if is_space c then lstrip r else s
  end.

Fixpoint rstrip (s : string) : string :=
  match s with
  | EmptyString => EmptyString
  | String c r =>
      match rstrip r with
      | EmptyString => if is_space c then EmptyString else String c EmptyString
      | r' => String c r'
      end
  end.

(** [s.strip()] *)
Definition strip (s : string) : string := rstrip (lstrip s).

(** [str(n)] for an integer. *)
Definition str (n : Z) : string := NilZero.string_of_int (Z.to_int n).

(** Unsigned decimal digits, at least one. *)
Definition digits_value (s : string) : option Z :=
  option_map Z.of_uint (NilZero.uint_of_string s).

(** [int(s)] on a byte string, base 10: blanks, an optional sign, at least
    one digit, blanks.  [None] stands for the [ValueError]. *)
Definition py_int (s : string) : option Z :=
  match strip s with
  | String c r =>
      if Ascii.eqb c "-" then option_map Z.opp (digits_value r)
      else if Ascii.eqb c "+" then digits_value r
      else digits_value (String c r)
  | EmptyString => None
  end.

(** [rjust(s,width)] of the [string] module: blanks on the left, never
    truncating. *)
Definition rjust (s : string) (width : nat) : string :=
  spaces (width - length s) ++ s.

Fixpoint zeros (n : nat) : string :=
  match n with
  | O => EmptyString
  | S k => String "0" (zeros k)
  end.

(** [zfill(s,width)]: zeros on the left, after a leading sign if any. *)
Definition zfill (s : string) (width : nat) : string :=
  match s with
  | String c r =>
      if (Ascii.eqb c "-" || Ascii.eqb c "+")%bool
      then String c (zeros (width - length s) ++ r)
      else zeros (width - length s) ++ s
  | EmptyString => zeros width
  end.

(** ** Errors and results *)

(** The exceptions the modelled code can raise. *)
Inductive pyerr : Type :=
| ValueError          (* int() or float() on text that is not a number *)
| UnboundLocalError   (* a local read before any assignment *)
| IndexError.         (* [0] on an empty string *)

Inductive result (A : Type) : Type :=
| Ok (a : A)
| Raise (e : pyerr).
Arguments Ok {A} a.
Arguments Raise {A} e.

Definition bind {A B : Type} (r : result A) (k : A -> result B) : result B :=
  match r with
  | Ok a => k a
  | Raise e => Raise e
  end.

Notation "x <- c1 ;; c2" := (bind c1 (fun x => c2))
  (at level 61, c1 at next level, right associativity).

(** [int(s)] with its exception. *)
Definition int_ (s : string) : result Z :=
  match py_int s with
  | Some v => Ok v
  | None => Raise ValueError
  end.

(** ** The record class [pdb_line] *)

Module pdb_line.

Record t : Type := mk {
  ATOM : string;
  serial : string;
  name : string;
  altloc : string;
  resname : string;
  chain : string;
  resnum : string;
  charmm_resnum : string;
  icode : string;
  x : string;
  y : string;
  z : string;
  occ : string;
  tempfac : string;
  segid : string;
  elename : string;
  charge : string;
  data : string
}.

Definition set_ATOM (v : string) (a : t) : t :=
  mk v (serial a) (name a) (altloc a) (resname a) (chain a) (resnum a)
     (charmm_resnum a) (icode a) (x a) (y a) (z a) (occ a) (tempfac a)
     (segid a) (elename a) (charge a) (data a).

Definition set_chain (v : string) (a : t) : t :=
  mk (ATOM a) (serial a) (name a) (altloc a) (resname a) v (resnum a)
     (charmm_resnum a) (icode a) (x a) (y a) (z a) (occ a) (tempfac a)
     (segid a) (elename a) (charge a) (data a).

Definition set_resnum (v : string) (a : t) : t :=
  mk (ATOM a) (serial a) (name a) (altloc a) (resname a) (chain a) v
     (charmm_resnum a) (icode a) (x a) (y a) (z a) (occ a) (tempfac a)
     (segid a) (elename a) (charge a) (data a).

Definition set_segid (v : string) (a : t) : t :=
  mk (ATOM a) (serial a) (name a) (altloc a) (resname a) (chain a) (resnum a)
     (charmm_resnum a) (icode a) (x a) (y a) (z a) (occ a) (tempfac a)
     v (elename a) (charge a) (data a).

Definition set_elename (v : string) (a : t) : t :=
  mk (ATOM a) (serial a) (name a) (altloc a) (resname a) (chain a) (resnum a)
     (charmm_resnum a) (icode a) (x a) (y a) (z a) (occ a) (tempfac a)
     (segid a) v (charge a) (data a).

Definition set_data (v : string) (a : t) : t :=
  mk (ATOM a) (serial a) (name a) (altloc a) (resname a) (chain a) (resnum a)
     (charmm_resnum a) (icode a) (x a) (y a) (z a) (occ a) (tempfac a)
     (segid a) (elename a) (charge a) v.

(** [" "*80+"\n"] *)
Definition blank_line : string := spaces 80 ++ nl.

(** The three rewrites of [line] at the head of [init]. *)
Definition pad (line : string) : string :=
  if (Nat.ltb 1 (length line) && Nat.ltb (length line) 81
      && (read_string line 1 4 =? "ATOM")%string)%bool
  then line ++ spaces (80 - length line) ++ nl
  else line.

Definition fix_length (line : string) : string :=
  if negb (Nat.eqb (length line) 81) then blank_line else line.

Definition fix_kind (line : string) : string :=
  if (negb (read_string line 1 6 =? "HETATM")%string
      && negb (read_string line 1 4 =? "ATOM")%string)%bool
  then blank_line else line.

Definition normalize (line : string) : string :=
  fix_kind (fix_length (pad line)).

(** The residue number and insertion code as [init] settles them: the value
    of [charmm_resnum] and [icode] after the alphabetic test, then the
    [try]/[except] around the comparison of the two readings. *)
Definition alpha_fix (line : string) : string * string :=
  if isalpha (read_string line 27 0)
  then (read_string line 24 26 ++ " ", " ")
  else (read_string line 24 27, read_string line 27 0).

Definition reconcile (resnum0 charmm icode0 : string) : string * string :=
  if (resnum0 =? "    ")%string then (resnum0, icode0)
  else
    match py_int resnum0, py_int charmm with
    | Some a, Some b => if a <? b then (charmm, " ") else (resnum0, icode0)
    | _, _ => (charmm, " ")
    end.

(** Write the line in charmm pdb format. *)
Definition write_charmm (a : t) : string :=
  let line := ATOM a ++ serial a ++ " " ++ name a ++ altloc a ++ resname a in
  let line := line ++ "" ++ chain a ++ " " ++ resnum a ++ "   " in
  let line := line ++ x a ++ y a ++ z a ++ occ a ++ tempfac a ++ "      " in
  let line := line ++ segid a ++ elename a ++ charge a ++ nl in
  line.

(** Write the line in PDB.org pdb format. *)
Definition write_pdb (a : t) : string :=
  let line := ATOM a ++ serial a ++ " " ++ name a ++ altloc a ++ resname a in
  let line := line ++ "" ++ chain a ++ resnum a ++ icode a ++ "   " in
  let line := line ++ x a ++ y a ++ z a ++ occ a ++ tempfac a ++ "      " in
  let line := line ++ segid a ++ elename a ++ charge a ++ nl in
  line.

(** The constructor. *)
Definition init (line : string) : t :=
  let line := normalize line in
  let '(charmm, icode1) := alpha_fix line in
  let '(resnum1, icode2) := reconcile (read_string line 23 26) charmm icode1 in
  let a :=
    mk (read_string line 1 6) (read_string line 7 11)
       (read_string line 13 16) (read_string line 17 0)
       (read_string line 18 21) (read_string line 22 0)
       resnum1 charmm icode2
       (read_string line 31 38) (read_string line 39 46)
       (read_string line 47 54)
       (read_string line 55 60) (read_string line 61 66)
       (read_string line 73 76) (read_string line 77 78)
       (read_string line 79 80) "" in
  set_data (write_charmm a) a.

End pdb_line.

(** Output format selected by [-p]: anything but ["charmm"] writes the
    PDB.org layout. *)
Inductive format : Type := charmm | pdb.

Definition write (fmt : format) (a : pdb_line.t) : string :=
  match fmt with
  | charmm => pdb_line.write_charmm a
  | pdb => pdb_line.write_pdb a
  end.

(** ** Floating point

    The geometric test reads three coordinate columns with [float()] and
    compares a square root with [3.00].  The engine is written over the
    operations it uses, so that every property below holds whatever the
    floating-point arithmetic does; [binary64] further down instantiates
    them with IEEE 754 doubles. *)

Class FloatOps : Type := {
  F : Type;
  float_of : string -> option F;   (* float(s); None is the ValueError *)
  fsub : F -> F -> F;              (* a - b *)
  fsq : F -> F;                    (* a ** 2 *)
  fadd : F -> F -> F;              (* a + b *)
  fsqrt : F -> F;                  (* sqrt(a) *)
  fgt : F -> F -> bool;            (* a > b *)
  three : F                        (* 3.00 *)
}.

(** ** The relevant-line reader *)

(** [check_line(line)]: 1 for an ATOM or HETATM line, 0 otherwise. *)
Definition check_line (line : string) : bool :=
  let atom := pdb_line.init line in
  ((pdb_line.ATOM atom =? "ATOM  ")%string
   || (pdb_line.ATOM atom =? "HETATM")%string)%bool.

(** [read_relevant_line(file)], an open file being the list of the lines not
    read yet and [readline] returning [""] at its end: the next line that
    [check_line] accepts, or the line that ended the [while] because it is
    empty. *)
Fixpoint read_relevant_line (file : list string) : string * list string :=
  match file with
  | [] => ("", [])
  | line1 :: rest =>
      if (negb (check_line line1) && negb (line1 =? "")%string)%bool
      then read_relevant_line rest
      else (line1, rest)
  end.

(** The water residue names of both membership tests. *)
Definition water_names : list string :=
  ["HOH "; "TIP3"; "TIP4"; "TIP5"; "SPC "; "SPCE"; "WAT "; "SOL "].

Definition is_water (resname : string) : bool :=
  existsb (String.eqb resname) water_names.

(** ['E'+zfill(str(segid),3)] *)
Definition E_label (segid : Z) : string := "E" ++ zfill (str segid) 3.

(** ** The automatic segmentation engine, [make_compatible] *)

(** The local variables of [make_compatible] that live across iterations,
    over the type [T] of floating-point numbers. *)
Record engine_of (T : Type) : Type := mk_engine {
  segid : Z;
  resnum : Z;
  atom1 : pdb_line.t;
  original_segid : string;
  original_resnum : string;
  chain : string;
  first_water : Z;
  last_O_coor : option (T * T * T)
}.
Arguments mk_engine {T}.
Arguments segid {T}.
Arguments resnum {T}.
Arguments atom1 {T}.
Arguments original_segid {T}.
Arguments original_resnum {T}.
Arguments chain {T}.
Arguments first_water {T}.
Arguments last_O_coor {T}.

Section Engine.

Context {FO : FloatOps}.

#[local] Abbreviation engine := (engine_of F).

(** Lines 240-258: the first relevant record, handled before the loop. *)
Definition first_record (line1 : string) : result (engine * pdb_line.t) :=
  let segid := 1 in
  let resnum := 1 in
  let atom1 := pdb_line.init line1 in
  resnum <-
    (if negb (pdb_line.resnum atom1 =? "")%string
     then v <- int_ (pdb_line.resnum atom1) ;;
          if negb (v =? 1) then int_ (pdb_line.resnum atom1) else Ok resnum
     else Ok resnum) ;;
  let atom1 := pdb_line.set_resnum (rjust (str resnum) 4) atom1 in
  let original_segid := pdb_line.segid atom1 in
  let original_resnum := pdb_line.resnum atom1 in
  let atom1 := pdb_line.set_segid (E_label segid) atom1 in
  let chain := pdb_line.chain atom1 in
  let atom1 := pdb_line.set_chain " " atom1 in
  let atom1 := pdb_line.set_ATOM "ATOM  " atom1 in
  let atom1 := pdb_line.set_elename "  " atom1 in
  Ok (mk_engine segid resnum atom1 original_segid original_resnum chain 0 None,
      atom1).

(** Lines 298-299: remember the coordinates of an atom named [" O  "]. *)
Definition track_O (st : engine) (atom2 : pdb_line.t)
  : result (option (F * F * F)) :=
  if (pdb_line.name atom2 =? " O  ")%string
  then match float_of (pdb_line.x atom2) with
       | None => Raise ValueError
       | Some fx =>
           match float_of (pdb_line.y atom2) with
           | None => Raise ValueError
           | Some fy =>
               match float_of (pdb_line.z atom2) with
               | None => Raise ValueError
               | Some fz => Ok (Some (fx, fy, fz))
               end
           end
       end
  else Ok (last_O_coor st).

(** Lines 301-304: the distance from the remembered oxygen to [atom2]. *)
Definition distance (last_O : option (F * F * F)) (atom2 : pdb_line.t)
  : result F :=
  match last_O with
  | None => Raise UnboundLocalError
  | Some (ox, oy, oz) =>
      match float_of (pdb_line.x atom2) with
      | None => Raise ValueError
      | Some fx =>
          let dist := fsq (fsub ox fx) in
          match float_of (pdb_line.y atom2) with
          | None => Raise ValueError
          | Some fy =>
              let dist := fadd dist (fsq (fsub oy fy)) in
              match float_of (pdb_line.z atom2) with
              | None => Raise ValueError
              | Some fz =>
                  let dist := fadd dist (fsq (fsub oz fz)) in
                  Ok (fsqrt dist)
              end
          end
      end
  end.

(** Lines 300-308: an atom named [" N  "] too far from the last oxygen gets
    the one-character segid [" "]. *)
Definition geometric_test (last_O : option (F * F * F)) (atom2 : pdb_line.t)
  : result pdb_line.t :=
  if (pdb_line.name atom2 =? " N  ")%string
  then dist <- distance last_O atom2 ;;
       Ok (if fgt dist three then pdb_line.set_segid " " atom2 else atom2)
  else Ok atom2.

(** Lines 313-326: a new segment is opened. *)
Definition break_needed (st : engine) (atom2 : pdb_line.t) : bool :=
  (negb (chain st =? pdb_line.chain atom2)%string
   || negb (pdb_line.segid atom2 =? pdb_line.segid (atom1 st))%string)%bool.

Definition open_segment (st : engine) (last_O : option (F * F * F))
    (original_resnum : string) (atom2 : pdb_line.t)
  : result (engine * pdb_line.t) :=
  let original_segid := pdb_line.segid (atom1 st) in
  let resnum := 1 in
  p <- int_ (pdb_line.resnum (atom1 st)) ;;
  resnum <- (if negb (p =? 1) then int_ original_resnum else Ok resnum) ;;
  let atom2 := pdb_line.set_resnum (rjust (str resnum) 4) atom2 in
  let segid := segid st + 1 in
  let atom2 := pdb_line.set_segid (E_label segid) atom2 in
  let atom2 :=
    if (pdb_line.resname atom2 =? "ACY ")%string
    then pdb_line.set_segid " ACY" atom2 else atom2 in
  Ok (mk_engine segid resnum (atom1 st) original_segid original_resnum
        (chain st) (first_water st) last_O,
      atom2).

(** Lines 286-292: a blank segid, or the one the previous segment started
    from, is replaced by the previous record's. *)
Definition inherit (st : engine) (atom2 : pdb_line.t) : pdb_line.t :=
  let atom2 :=
    if (pdb_line.segid atom2 =? "    ")%string
    then pdb_line.set_segid (pdb_line.segid (atom1 st)) atom2 else atom2 in
  let atom2 :=
    if (pdb_line.segid atom2 =? original_segid st)%string
    then pdb_line.set_segid (pdb_line.segid (atom1 st)) atom2 else atom2 in
  atom2.

(** Lines 275-279: the residue counter for a residue that is not water. *)
Definition next_resnum (st : engine) (atom2 : pdb_line.t) : Z :=
  if (negb (original_resnum st =? pdb_line.resnum atom2)%string
      || negb (pdb_line.resname (atom1 st) =? pdb_line.resname atom2)%string
      || (pdb_line.name atom2 =? " N  ")%string)%bool
  then resnum st + 1 else resnum st.

(** Lines 275-308: the record as it reaches the test of line 313, with the
    oxygen coordinates then in force. *)
Definition before_break (st : engine) (atom2 : pdb_line.t)
  : result (option (F * F * F) * pdb_line.t) :=
  let resnum := next_resnum st atom2 in
  let atom2 := pdb_line.set_resnum (rjust (str resnum) 4) atom2 in
  let atom2 := inherit st atom2 in
  last_O <- track_O st atom2 ;;
  atom2 <- geometric_test last_O atom2 ;;
  Ok (last_O, atom2).

(** Lines 272-326: the branch for a residue that is not water. *)
Definition nonwater (st : engine) (atom2 : pdb_line.t)
  : result (engine * pdb_line.t) :=
  let resnum := next_resnum st atom2 in
  let original_resnum := pdb_line.resnum atom2 in
  r <- before_break st atom2 ;;
  let '(last_O, atom2) := r in
  if break_needed st atom2
  then open_segment st last_O original_resnum atom2
  else Ok (mk_engine (segid st) resnum (atom1 st) (original_segid st)
             original_resnum (chain st) (first_water st) last_O,
           atom2).

(** Lines 331-343: the branch for a water residue. *)
Definition water (st : engine) (atom2 : pdb_line.t)
  : result (engine * pdb_line.t) :=
  let atom2 := pdb_line.set_segid " WAT" atom2 in
  let '(resnum, first_water) :=
    if first_water st =? 0 then (0, 1) else (resnum st, first_water st) in
  match strip (pdb_line.name atom2) with
  | EmptyString => Raise IndexError
  | String c _ =>
      let resnum := if Ascii.eqb c "O" then resnum + 1 else resnum in
      let atom2 := pdb_line.set_resnum (rjust (str resnum) 4) atom2 in
      Ok (mk_engine (segid st) resnum (atom1 st) (original_segid st)
            (original_resnum st) (chain st) first_water (last_O_coor st),
          atom2)
  end.

(** Lines 345-354: what both branches share before the record is written
    and becomes [atom1]. *)
Definition finish (st : engine) (atom2 : pdb_line.t) : engine * pdb_line.t :=
  let chain := pdb_line.chain atom2 in
  let atom2 := pdb_line.set_chain " " atom2 in
  let atom2 := pdb_line.set_ATOM "ATOM  " atom2 in
  let atom2 := pdb_line.set_elename "  " atom2 in
  (mk_engine (segid st) (resnum st) atom2 (original_segid st)
     (original_resnum st) chain (first_water st) (last_O_coor st),
   atom2).

(** One iteration of the [while] on the record [atom2]: the new state and
    the record handed to the serialiser. *)
Definition step (st : engine) (atom2 : pdb_line.t)
  : result (engine * pdb_line.t) :=
  r <- (if negb (is_water (pdb_line.resname atom2))
        then nonwater st atom2 else Ok (st, atom2)) ;;
  r <- (if is_water (pdb_line.resname (snd r))
        then water (fst r) (snd r) else Ok r) ;;
  Ok (finish (fst r) (snd r)).

(** The [while line2:] loop on the rest of the file: the records written, in
    order, and either the state when the input ran out or the exception that
    ended the run after the records already written. *)
Fixpoint loop (st : engine) (file : list string)
  : list pdb_line.t * result engine :=
  match file with
  | [] => ([], Ok st)
  | line2 :: rest =>
      if check_line line2 then
        match step st (pdb_line.init line2) with
        | Ok (st', atom2) =>
            let '(out, r) := loop st' rest in (atom2 :: out, r)
        | Raise e => ([], Raise e)
        end
      else if (line2 =? "")%string then ([], Ok st)
      else loop st rest
  end.

(** The records [make_compatible] writes and its outcome. *)
Definition emitted (file : list string) : list pdb_line.t * result Z :=
  let '(line1, rest) := read_relevant_line file in
  match first_record line1 with
  | Raise e => ([], Raise e)
  | Ok (st, atom1) =>
      let '(out, r) := loop st rest in
      (atom1 :: out, _ <- r ;; Ok 1)
  end.

(** [make_compatible(input_filep,out_filep,format)]: the lines written to
    [out_filep] and the value returned. *)
Definition make_compatible (file : list string) (fmt : format)
  : list string * result Z :=
  let '(out, r) := emitted file in (map (write fmt) out, r).

(** The segment ids the engine itself writes while its counter is at most
    [n]. *)
Definition generated (n : Z) (s : string) : Prop :=
  s = " WAT" \/ s = " ACY" \/ exists k, 1 <= k <= n /\ s = E_label k.

(** What holds of the engine's variables whenever a record has been
    written: the segment counter is positive, the previous record carries a
    label the engine made, and its residue number is the counter as
    printed. *)
Record inv (st : engine) : Prop := mk_inv {
  inv_segid : 1 <= segid st;
  inv_label : generated (segid st) (pdb_line.segid (atom1 st));
  inv_resnum : pdb_line.resnum (atom1 st) = rjust (str (resnum st)) 4
}.

(** The residue number a new segment starts from: 1 when the previous
    record was written with residue number 1, otherwise the number the
    current record had in the input. *)
Definition restart (st : engine) (atom2 : pdb_line.t) (q : Z) : Prop :=
  if resnum st =? 1 then q = 1
  else py_int (pdb_line.resnum atom2) = Some q.

(** A record that sets the remembered oxygen: not water, named [" O  "]. *)
Definition is_oxygen (a : pdb_line.t) : bool :=
  (negb (is_water (pdb_line.resname a))
   && (pdb_line.name a =? " O  ")%string)%bool.

(** The engine's variables once the whole file was read. *)
Definition engine_after (file : list string) : result engine :=
  let '(line1, rest) := read_relevant_line file in
  r <- first_record line1 ;; snd (loop (fst r) rest).

End Engine.

(** ** The range engine, [make_segid] *)

(** [n in range(b,e)] on integers. *)
Definition in_range (n b e : Z) : bool := ((b <=? n) && (n <? e))%bool.

(** Lines 515-520: [for i in range(0,max_segid)] over [begin[i]], [end[i]],
    here the list of the pairs still to visit and the index [i] reached. *)
Fixpoint assign (max_segid i : Z) (ranges : list (Z * Z)) (atom : pdb_line.t)
  : result pdb_line.t :=
  match ranges with
  | [] => Ok atom
  | (b, e) :: rest =>
      n <- int_ (pdb_line.resnum atom) ;;
      if in_range n b (e + 1)
      then Ok (pdb_line.set_segid (E_label (i + 1)) atom)
      else assign max_segid (i + 1) rest
             (pdb_line.set_segid (E_label (max_segid + 1)) atom)
  end.

(** Lines 513-520 for one relevant line. *)
Definition segid_record (ranges : list (Z * Z)) (line : string)
  : result pdb_line.t :=
  let atom := pdb_line.init line in
  let atom := pdb_line.set_ATOM "ATOM  " atom in
  assign (Z.of_nat (Datatypes.length ranges)) 0 ranges atom.

(** Lines 511-527: the records written and how the loop ended. *)
Fixpoint segid_loop (ranges : list (Z * Z)) (file : list string)
  : list pdb_line.t * result unit :=
  match file with
  | [] => ([], Ok tt)
  | line :: rest =>
      if check_line line then
        match segid_record ranges line with
        | Ok atom =>
            let '(out, r) := segid_loop ranges rest in (atom :: out, r)
        | Raise e => ([], Raise e)
        end
      else if (line =? "")%string then ([], Ok tt)
      else segid_loop ranges rest
  end.

Definition make_segid (ranges : list (Z * Z)) (file : list string)
    (fmt : format) : list string * result Z :=
  let '(out, r) := segid_loop ranges file in
  (map (write fmt) out, _ <- r ;; Ok 1).

(** Lines 491-504: the range file.  [None] stands for the [sys.exit()] that
    follows a line that does not split in two at ["-"] or whose parts
    [int()] rejects. *)

(** [s.split("-")] *)
Fixpoint split_dash (s : string) : list string :=
  match s with
  | EmptyString => [EmptyString]
  | String c r =>
      if Ascii.eqb c "-" then EmptyString :: split_dash r
      else match split_dash r with
           | h :: t => String c h :: t
           | [] => [String c EmptyString]
           end
  end.

Definition read_range (res_seq : string) : option (Z * Z) :=
  match split_dash res_seq with
  | [a; b] =>
      match py_int a with
      | Some x =>
          match py_int b with
          | Some y => Some (x, y)
          | None => None
          end
      | None => None
      end
  | _ => None
  end.

Fixpoint read_ranges (resid_filep : list string) : option (list (Z * Z)) :=
  match resid_filep with
  | [] => Some []
  | res_seq :: rest =>
      match read_range res_seq with
      | None => None
      | Some r =>
          match read_ranges rest with
          | None => None
          | Some rs => Some (r :: rs)
          end
      end
  end.

(** [make_segid(input_filep,out_filep,format,resid_filep)] from the range
    file on: nothing is read from the input when the range file is bad. *)
Definition make_segid_file (resid_filep file : list string) (fmt : format)
  : option (list string * result Z) :=
  match read_ranges resid_filep with
  | None => None
  | Some ranges => Some (make_segid ranges file fmt)
  end.

(** ** The index writer, [make_index] *)

(** ["%8d " % atom_index] *)
Definition index_entry (atom_index : Z) : string :=
  rjust (str atom_index) 8 ++ " ".

(** ["\n\n"+"[ "+atom.segid+" ]"+"\n"] *)
Definition index_header (segid : string) : string :=
  nl ++ nl ++ "[ " ++ segid ++ " ]" ++ nl.

(** Lines 393-415: the [while line:] loop, with the variables [segid],
    [atom_index] and [entry_counter]; the result is the list of the strings
    written, one per call of [write]. *)
Fixpoint index_loop (segid : string) (atom_index entry_counter : Z)
    (file : list string) : list string :=
  match file with
  | [] => []
  | line :: rest =>
      if check_line line then
        let atom := pdb_line.init line in
        let atom_index := atom_index + 1 in
        let entry_counter := entry_counter + 1 in
        let new_group := negb (segid =? pdb_line.segid atom)%string in
        let segid' := if new_group then pdb_line.segid atom else segid in
        let entry_counter := if new_group then 1 else entry_counter in
        let wrap := entry_counter =? 8 in
        let entry_counter := if wrap then 0 else entry_counter in
        ((if new_group then [index_header (pdb_line.segid atom)] else [])
         ++ [index_entry atom_index]
         ++ (if wrap then [nl] else [])
         ++ index_loop segid' atom_index entry_counter rest)%list
      else if (line =? "")%string then []
      else index_loop segid atom_index entry_counter rest
  end.

(** [make_index(input_filep,output_filep)]: the strings written and the
    value returned. *)
Definition make_index (file : list string) : list string * Z :=
  (index_loop "" 0 0 file, 1).

(** ** The files of [main] *)

(** The text of a file after the given calls of [write]. *)
Definition file_text (writes : list string) : string :=
  fold_right append EmptyString writes.

(** The lines of a file with the text [s] as [readline] returns them one
    after the other: each with its terminator, the last one possibly
    without. *)
Fixpoint split_lines (s : string) : list string :=
  match s with
  | EmptyString => []
  | String c r =>
      if Ascii.eqb c "010" then String c EmptyString :: split_lines r
      else match split_lines r with
           | [] => [String c EmptyString]
           | l :: t => String c l :: t
           end
  end.

(** ** IEEE 754 doubles *)

(** The value of a string of decimal digits, most significant first. *)
Fixpoint digits_acc (acc : Z) (s : string) : option Z :=
  match s with
  | EmptyString => Some acc
  | String c r =>
      if is_digit c
      then digits_acc (10 * acc + Z.of_nat (nat_of_ascii c - 48)) r
      else None
  end.

Fixpoint split_dot (s : string) : string * option string :=
  match s with
  | EmptyString => (EmptyString, None)
  | String c r =>
      if Ascii.eqb c "."
      then (EmptyString, Some r)
      else let '(a, b) := split_dot r in (String c a, b)
  end.

Definition float_of_Z (m : Z) : float := PrimFloat.of_uint63 (Uint63.of_Z m).

(** [float(s)] on plain decimal notation, the form coordinate columns hold:
    blanks, an optional sign, digits with an optional point.  The quotient of
    two exactly represented integers is rounded once, so the result is the
    double nearest to the decimal as long as the digits stay below [2^53].
    Other spellings that Python accepts (exponents, [inf], [nan]) are left
    out of this instance. *)
Definition decimal_float (s : string) : option float :=
  let t := strip s in
  let '(neg, body) :=
    match t with
    | String c r =>
        if Ascii.eqb c "-" then (true, r)
        else if Ascii.eqb c "+" then (false, r) else (false, t)
    | EmptyString => (false, t)
    end in
  let '(ip, fp) := split_dot body in
  let fp := match fp with Some f => f | None => EmptyString end in
  match (ip ++ fp)%string with
  | EmptyString => None
  | ds =>
      match digits_acc 0 ds with
      | None => None
      | Some m =>
          let v := PrimFloat.div (float_of_Z m)
                     (float_of_Z (10 ^ Z.of_nat (length fp))) in
          Some (if neg then PrimFloat.opp v else v)
      end
  end.

#[export] Instance binary64 : FloatOps := {|
  F := float;
  float_of := decimal_float;
  fsub := PrimFloat.sub;
  fsq := fun a => PrimFloat.mul a a;
  fadd := PrimFloat.add;
  fsqrt := PrimFloat.sqrt;
  fgt := fun a b => PrimFloat.ltb b a;
  three := float_of_Z 3
|}.

(** Lines 592-609 of [main], the options being read: the conversion by the
    engine that [-s] selects, [None] standing for the [sys.exit()] of a bad
    range file, and then, with [-n] and when the conversion returned, the
    index of the output file read again. *)
Definition convert_and_index {FO : FloatOps} (input : list string)
    (fmt : format) (resid_filep : option (list string)) (index_option : bool)
  : option (list string * result Z) * option (list string * Z) :=
  let conversion :=
    match resid_filep with
    | None => Some (make_compatible input fmt)
    | Some rf => make_segid_file rf input fmt
    end in
  (conversion,
   match conversion with
   | Some (out, Ok _) =>
       if index_option
       then Some (make_index (split_lines (file_text out)))
       else None
   | _ => None
   end).

(** ** Predicates of the statements *)

Definition not_space (c : ascii) : bool := negb (is_space c).

(** The characters [int()] can accept at all. *)
Definition int_char (c : ascii) : bool :=
  (is_space c || is_digit c || Ascii.eqb c "-" || Ascii.eqb c "+")%bool.

(** Every field of a parsed record has the width of its columns. *)
Definition well_sized (a : pdb_line.t) : Prop :=
  length (pdb_line.ATOM a) = 6%nat /\
  length (pdb_line.serial a) = 5%nat /\
  length (pdb_line.name a) = 4%nat /\
  length (pdb_line.altloc a) = 1%nat /\
  length (pdb_line.resname a) = 4%nat /\
  length (pdb_line.chain a) = 1%nat /\
  length (pdb_line.resnum a) = 4%nat /\
  length (pdb_line.icode a) = 1%nat /\
  length (pdb_line.x a) = 8%nat /\
  length (pdb_line.y a) = 8%nat /\
  length (pdb_line.z a) = 8%nat /\
  length (pdb_line.occ a) = 6%nat /\
  length (pdb_line.tempfac a) = 6%nat /\
  length (pdb_line.segid a) = 4%nat /\
  length (pdb_line.elename a) = 2%nat /\
  length (pdb_line.charge a) = 2%nat.

(** A line starts like one of the two atom-record kinds. *)
Definition recognizable (line : string) : bool :=
  ((read_string line 1 6 =? "HETATM")%string
   || (read_string line 1 4 =? "ATOM")%string)%bool.

(** An 81-character line of one of the two kinds. *)
Definition well_formed (line : string) : bool :=
  (Nat.eqb (length line) 81 && recognizable line)%bool.

(** The record whose fields are all blanks. *)
Definition blank_record : pdb_line.t :=
  pdb_line.mk (spaces 6) (spaces 5) (spaces 4) (spaces 1) (spaces 4)
    (spaces 1) (spaces 4) (spaces 4) (spaces 1) (spaces 8) (spaces 8)
    (spaces 8) (spaces 6) (spaces 6) (spaces 4) (spaces 2) (spaces 2)
    (spaces 80 ++ nl).

(** Every record the automatic engine writes has a blank chain id and a
    blank element symbol, and is an ATOM record. *)
Definition cleared (a : pdb_line.t) : Prop :=
  pdb_line.ATOM a = "ATOM  " /\ pdb_line.chain a = " " /\
  pdb_line.elename a = "  ".

(** The range table as the specification words it: the position, counted
    from 0, of the first range that holds [n], both ends included. *)
Fixpoint spec_first_range (n : Z) (ranges : list (Z * Z)) : option nat :=
  match ranges with
  | [] => None
  | (b, e) :: rest =>
      if ((b <=? n) && (n <=? e))%bool then Some O
      else option_map S (spec_first_range n rest)
  end.

(** The segment id the specification gives residue number [n]: the first
    matching range's index plus one, or the number of ranges plus one. *)
Definition spec_range_label (n : Z) (ranges : list (Z * Z)) : string :=
  match spec_first_range n ranges with
  | Some i => E_label (Z.of_nat i + 1)
  | None => E_label (Z.of_nat (Datatypes.length ranges) + 1)
  end.

(** What [make_segid] changes in a parsed record: the record kind and the
    segment id. *)
Definition relabelled (parsed a : pdb_line.t) : Prop :=
  a = pdb_line.set_segid (pdb_line.segid a)
        (pdb_line.set_ATOM "ATOM  " parsed).

(** A parsed record as the engine hands it to the serialiser. *)
Definition written (line resnum segid : string) : pdb_line.t :=
  pdb_line.set_elename "  "
    (pdb_line.set_ATOM "ATOM  "
       (pdb_line.set_chain " "
          (pdb_line.set_segid segid
             (pdb_line.set_resnum resnum (pdb_line.init line))))).

(** The lines [read_relevant_line] returns one after the other, up to the
    end of the file. *)
Fixpoint relevant_lines (file : list string) : list string :=
  match file with
  | [] => []
  | line :: rest =>
      if check_line line then line :: relevant_lines rest
      else if (line =? "")%string then []
      else relevant_lines rest
  end.

(** A water atom whose stripped name starts with ["O"]. *)
Definition water_oxygen (a : pdb_line.t) : bool :=
  match strip (pdb_line.name a) with
  | String c _ => Ascii.eqb c "O"
  | EmptyString => false
  end.

(** The residue numbers of a run of water records: the oxygens counted so
    far, starting from [n]. *)
Fixpoint water_counts (n : Z) (recs : list pdb_line.t) : list Z :=
  match recs with
  | [] => []
  | a :: rest =>
      let n' := if water_oxygen a then n + 1 else n in
      n' :: water_counts n' rest
  end.

(** A list without two equal neighbours: one element per run. *)
Fixpoint runs (l : list string) : list string :=
  match l with
  | [] => []
  | a :: rest =>
      match rest with
      | [] => [a]
      | b :: _ => if (a =? b)%string then runs rest else a :: runs rest
      end
  end.

(** The strings [make_index] writes are group headers, entries and line
    breaks; the first two are told apart by their first character. *)
Definition is_header (s : string) : bool :=
  (Nat.ltb 1 (length s) && (read_string s 1 0 =? nl)%string)%bool.

Definition is_entry (s : string) : bool :=
  negb (read_string s 1 0 =? nl)%string.

(** The longest run of neighbouring entries in what was written, [k] being
    the length of the run under way. *)
Fixpoint longest_row (k : nat) (written : list string) : nat :=
  match written with
  | [] => k
  | s :: rest =>
      if is_entry s then longest_row (S k) rest
      else Nat.max k (longest_row 0 rest)
  end.

(** A character other than the separator of the range file. *)
Definition not_dash (c : ascii) : bool := negb (Ascii.eqb c "-").

(** A line of the range file as the usage text shows it. *)
Definition range_line (r : Z * Z) : string :=
  str (fst r) ++ " - " ++ str (snd r) ++ nl.

(** The residue number and the insertion code [init] settles on, from the
    four column windows it reads: 23-26, 24-26, 24-27 and 27. *)
Definition reread (c23_26 c24_26 c24_27 c27 : string) : string * string :=
  pdb_line.reconcile c23_26
    (if isalpha c27 then c24_26 ++ " " else c24_27)
    (if isalpha c27 then " " else c27).

(** The integers from [base] on, [len] of them. *)
Definition Z_range (base len : Z) : list Z :=
  map (fun k => base + Z.of_nat k) (seq 0 (Z.to_nat len)).

(** A residue counter written in the charmm layout is read back as
    written. *)
Definition charmm_reread_ok (n : Z) : bool :=
  let r := rjust (str n) 4 in
  let '(r', i') := reread (" " ++ substring 0 3 r) (substring 0 3 r) r
                     (substring 3 1 r) in
  ((r' =? r) && (i' =? " "))%string.

(** A residue counter written in the PDB.org layout before a blank
    insertion code is read back as written. *)
Definition pdb_reread_ok (n : Z) : bool :=
  let r := rjust (str n) 4 in
  let '(r', i') := reread r (substring 1 3 r) (substring 1 3 r ++ " ") " " in
  ((r' =? r) && (i' =? " "))%string.

(** A string with one terminator, at its end. *)
Fixpoint one_line (l : string) : bool :=
  match l with
  | EmptyString => false
  | String c r =>
      if Ascii.eqb c "010" then (r =? "")%string else one_line r
  end.

(** The residue counters and segment counters whose text fills four
    columns. *)
Definition resnum_fits (n : Z) : bool :=
  Nat.eqb (length (rjust (str n) 4)) 4.

Definition label_fits (k : Z) : bool := Nat.eqb (length (E_label k)) 4.

(** ** Sample lines and states *)

Definition atom_line_81 : string :=
  "ATOM     17  CA AALA B  42A     11.104   6.134  -6.504  1.00 12.50      SEG1 C1+"
  ++ nl.

Definition short_atom : string :=
  "ATOM      1  N   ALA A   1      11.104   6.134  -6.504" ++ nl.

Definition short_hetatm : string :=
  "HETATM    1  O   HOH A   1      11.104   6.134  -6.504" ++ nl.

Definition wide_line : string :=
  "ATOM   9999  CA  ALA A 1000     11.104   6.134  -6.504  1.00 12.50      SEG1    "
  ++ nl.

Definition ala_N : string :=
  "ATOM      1  N   ALA A   1       0.000   0.000   0.000  1.00  0.00           N  "
  ++ nl.

Definition ala_O : string :=
  "ATOM      2  O   ALA A   1       1.000   2.000   2.000  1.00  0.00           O  "
  ++ nl.

Definition gly_N_far : string :=
  "ATOM      3  N   GLY A   2       1.000   2.000   5.010  1.00  0.00           N  "
  ++ nl.

Definition gly_N_near : string :=
  "ATOM      3  N   GLY A   2       1.000   2.000   4.990  1.00  0.00           N  "
  ++ nl.

Definition acy_O : string :=
  "HETATM    2  O   ACY B   2       1.000   0.000   0.000  1.00  0.00           O  "
  ++ nl.

Definition acy_N : string :=
  "HETATM    3  N   ACY B   3       9.000   0.000   0.000  1.00  0.00           N  "
  ++ nl.

Definition res5_A : string :=
  "ATOM      1  CA  ALA A   5       0.000   0.000   0.000  1.00  0.00           C  "
  ++ nl.

Definition res7_B : string :=
  "ATOM      2  CA  GLY B   7       4.000   0.000   0.000  1.00  0.00           C  "
  ++ nl.

Definition res1_A : string :=
  "ATOM      1  CA  ALA A   1       0.000   0.000   0.000  1.00  0.00           C  "
  ++ nl.

Definition water_O : string :=
  "HETATM    1  O   HOH A   1       0.000   0.000   0.000  1.00  0.00           O  "
  ++ nl.

Definition water_H : string :=
  "HETATM    2  H1  HOH A   1       0.960   0.000   0.000  1.00  0.00           H  "
  ++ nl.

Definition no_resnum : string :=
  "ATOM      1  N   ALA A           0.000   0.000   0.000  1.00  0.00           N  "
  ++ nl.

Definition water_unnamed : string :=
  "HETATM    3      HOH A   2       3.000   0.000   0.000  1.00  0.00              "
  ++ nl.

Definition water_H2 : string :=
  "HETATM    3  H2  HOH A   1       0.000   0.960   0.000  1.00  0.00           H  "
  ++ nl.

Definition water_O2 : string :=
  "HETATM    4  OH2 TIP3A   2       3.000   0.000   0.000  1.00  0.00           O  "
  ++ nl.

(** After an alanine's N and O: one segment, residue 1, the oxygen at
    (1, 2, 2). *)
Definition after_ala : engine_of float :=
  mk_engine 1 1 (written ala_O "   1" "E001") "    " "   1" "A" 0
    (Some (float_of_Z 1, float_of_Z 2, float_of_Z 2)).

(** After one record of residue 5 in chain A. *)
Definition after_res5 : engine_of float :=
  mk_engine 1 5 (written res5_A "   5" "E001") "    " "   5" "A" 0 None.


(** * Properties *)

(** ** Strings *)

Lemma length_app (a b : string) :
  length (a ++ b) = (length a + length b)%nat.
Proof. induction a as [|c a IH]; simpl; [reflexivity | now rewrite IH]. Qed.

Lemma length_spaces (n : nat) : length (spaces n) = n.
Proof. induction n; simpl; congruence. Qed.

Lemma substring_length (s : string) :
  forall n m, (n + m <= length s)%nat -> length (substring n m s) = m.
Proof.
  induction s as [|c s IH]; intros n m H; simpl in H.
  - assert (n = 0%nat /\ m = 0%nat) as [-> ->] by lia. reflexivity.
  - destruct n as [|n]; destruct m as [|m]; simpl; try reflexivity.
    + rewrite IH; [reflexivity | lia].
    + apply IH; lia.
    + apply IH; lia.
Qed.

Lemma substring_app_l (a b : string) :
  forall n m, (n + m <= length a)%nat ->
  substring n m (a ++ b) = substring n m a.
Proof.
  induction a as [|c a IH]; intros n m H; simpl in H.
  - assert (n = 0%nat /\ m = 0%nat) as [-> ->] by lia.
    simpl. now destruct b.
  - destruct n as [|n]; destruct m as [|m]; simpl; try reflexivity.
    + rewrite IH; [reflexivity | lia].
    + apply IH; lia.
    + apply IH; lia.
Qed.

Lemma substring_split (s : string) :
  forall n a b,
  substring n (a + b) s = substring n a s ++ substring (n + a) b s.
Proof.
  induction s as [|c s IH]; intros n a b.
  - destruct n, a, b; reflexivity.
  - destruct n as [|n]; simpl.
    + destruct a as [|a]; simpl.
      * reflexivity.
      * f_equal. apply (IH 0%nat).
    + apply IH.
Qed.

Lemma read_string_length (line : string) (a b : nat) :
  (1 <= a)%nat -> (a <= b)%nat -> (b <= length line)%nat ->
  length (read_string line a b) = (b - a + 1)%nat.
Proof.
  intros Ha Hab Hb. unfold read_string, slice.
  destruct (Nat.eqb_spec b 0); [lia|].
  rewrite substring_length; lia.
Qed.

Lemma read_string_length1 (line : string) (a : nat) :
  (1 <= a)%nat -> (a <= length line)%nat ->
  length (read_string line a 0) = 1%nat.
Proof.
  intros Ha Hb. unfold read_string, slice.
  change (Nat.eqb 0 0) with true. cbv iota.
  rewrite substring_length; lia.
Qed.

(** Turns [H : length s = n], for a numeral [n], into the [n] characters of
    [s]. *)
Ltac explode s H :=
  repeat (destruct s as [|? s];
          [discriminate H | simpl in H; apply Nat.succ_inj in H]);
  destruct s; [clear H | discriminate H].

(** ** The record codec *)

Lemma pad_length (line : string) :
  pdb_line.pad line = line \/
  (pdb_line.pad line = line ++ spaces (80 - length line) ++ nl
   /\ length (pdb_line.pad line) = 81%nat).
Proof.
  unfold pdb_line.pad.
  destruct (Nat.ltb_spec 1 (length line)); cbn [andb]; [|now left].
  destruct (Nat.ltb_spec (length line) 81); cbn [andb]; [|now left].
  destruct (read_string line 1 4 =? "ATOM")%string; [|now left].
  right. split; [reflexivity|].
  rewrite !length_app, length_spaces. change (length nl) with 1%nat. lia.
Qed.

Lemma normalize_length (line : string) :
  length (pdb_line.normalize line) = 81%nat.
Proof.
  unfold pdb_line.normalize, pdb_line.fix_kind, pdb_line.fix_length.
  destruct (_ && _)%bool; [reflexivity|].
  destruct (Nat.eqb_spec (length (pdb_line.pad line)) 81); simpl;
    [assumption | reflexivity].
Qed.

(** The fields of a parsed record in terms of the normalised line. *)
Lemma init_fields (line : string) :
  let l := pdb_line.normalize line in
  let a := pdb_line.init line in
  pdb_line.ATOM a = read_string l 1 6 /\
  pdb_line.serial a = read_string l 7 11 /\
  pdb_line.name a = read_string l 13 16 /\
  pdb_line.altloc a = read_string l 17 0 /\
  pdb_line.resname a = read_string l 18 21 /\
  pdb_line.chain a = read_string l 22 0 /\
  pdb_line.resnum a =
    fst (pdb_line.reconcile (read_string l 23 26)
           (fst (pdb_line.alpha_fix l)) (snd (pdb_line.alpha_fix l))) /\
  pdb_line.charmm_resnum a = fst (pdb_line.alpha_fix l) /\
  pdb_line.icode a =
    snd (pdb_line.reconcile (read_string l 23 26)
           (fst (pdb_line.alpha_fix l)) (snd (pdb_line.alpha_fix l))) /\
  pdb_line.x a = read_string l 31 38 /\
  pdb_line.y a = read_string l 39 46 /\
  pdb_line.z a = read_string l 47 54 /\
  pdb_line.occ a = read_string l 55 60 /\
  pdb_line.tempfac a = read_string l 61 66 /\
  pdb_line.segid a = read_string l 73 76 /\
  pdb_line.elename a = read_string l 77 78 /\
  pdb_line.charge a = read_string l 79 80.
Proof.
  intros l a. subst a l. unfold pdb_line.init.
  destruct (pdb_line.alpha_fix (pdb_line.normalize line)) as [cr ic].
  cbn [fst snd].
  destruct (pdb_line.reconcile _ cr ic) as [rn ic2].
  repeat apply conj; reflexivity.
Qed.

Lemma alpha_fix_length (l : string) :
  length l = 81%nat ->
  length (fst (pdb_line.alpha_fix l)) = 4%nat /\
  length (snd (pdb_line.alpha_fix l)) = 1%nat.
Proof.
  intros Hl. unfold pdb_line.alpha_fix.
  destruct (isalpha _); simpl.
  - rewrite length_app, read_string_length by lia. split; reflexivity.
  - rewrite read_string_length, read_string_length1 by lia.
    split; reflexivity.
Qed.

Lemma reconcile_cases (r c i : string) :
  pdb_line.reconcile r c i = (r, i) \/ pdb_line.reconcile r c i = (c, " ").
Proof.
  unfold pdb_line.reconcile.
  destruct (r =? "    ")%string; [now left|].
  destruct (py_int r); [|now right].
  destruct (py_int c); [|now right].
  destruct (_ <? _); [now right | now left].
Qed.

Lemma init_well_sized (line : string) : well_sized (pdb_line.init line).
Proof.
  pose proof (normalize_length line) as Hl.
  pose proof (init_fields line) as Hf. cbv zeta in Hf.
  destruct (alpha_fix_length _ Hl) as [Hc Hi].
  unfold well_sized.
  destruct Hf as (-> & -> & -> & -> & -> & -> & Hr & _ & Hic
                  & -> & -> & -> & -> & -> & -> & -> & ->).
  rewrite Hr, Hic.
  repeat split;
    try (rewrite read_string_length by lia; reflexivity);
    try (rewrite read_string_length1 by lia; reflexivity).
  all: destruct (reconcile_cases (read_string (pdb_line.normalize line) 23 26)
                (fst (pdb_line.alpha_fix (pdb_line.normalize line)))
                (snd (pdb_line.alpha_fix (pdb_line.normalize line)))) as [E|E];
    rewrite E; cbn [fst snd]; auto.
  rewrite read_string_length by lia; reflexivity.
Qed.

Lemma append_assoc (a b c : string) : (a ++ b) ++ c = a ++ b ++ c.
Proof. induction a as [|x a IH]; simpl; [reflexivity | now rewrite IH]. Qed.

Lemma substring_full_prefix (s : string) :
  forall m, length (substring 0 m s) = m -> (m <= length s)%nat.
Proof.
  induction s as [|c s IH]; intros [|m] H; simpl in *; try lia.
  apply Nat.succ_inj in H. apply IH in H. lia.
Qed.

Lemma read_string_app (line tail : string) (b : nat) (v : string) :
  (1 <= b)%nat -> length v = b ->
  read_string line 1 b = v -> read_string (line ++ tail) 1 b = v.
Proof.
  intros Hb Hv H. unfold read_string, slice in *.
  destruct (Nat.eqb_spec b 0); [lia|].
  replace (b - (1 - 1))%nat with b in * by lia. cbn [Nat.sub] in *.
  rewrite substring_app_l; [assumption|].
  rewrite <- H in Hv. apply substring_full_prefix in Hv. lia.
Qed.

Lemma hetatm_not_atom (line : string) :
  read_string line 1 6 = "HETATM" -> read_string line 1 4 <> "ATOM".
Proof.
  unfold read_string, slice. cbn [Nat.eqb Nat.sub].
  change 6%nat with (4 + 2)%nat. rewrite substring_split.
  intros H E. rewrite E in H. discriminate H.
Qed.

Lemma fix_kind_recognizable (l : string) :
  pdb_line.fix_kind l = if recognizable l then l else pdb_line.blank_line.
Proof.
  unfold pdb_line.fix_kind, recognizable.
  destruct (_ =? "HETATM")%string; destruct (_ =? "ATOM")%string; reflexivity.
Qed.

Lemma normalize_well_formed (line : string) :
  well_formed line = true -> pdb_line.normalize line = line.
Proof.
  unfold well_formed. intros H. apply andb_prop in H as [Hl Hk].
  apply Nat.eqb_eq in Hl.
  unfold pdb_line.normalize, pdb_line.pad, pdb_line.fix_length.
  rewrite Hl. cbn [Nat.ltb Nat.leb Nat.eqb andb negb].
  rewrite Hl. cbn [Nat.eqb negb].
  rewrite fix_kind_recognizable, Hk. reflexivity.
Qed.

Lemma init_of_blank (line : string) :
  pdb_line.normalize line = pdb_line.blank_line ->
  pdb_line.init line = blank_record.
Proof. intros H. unfold pdb_line.init. rewrite H. reflexivity. Qed.

Lemma normalize_unpadded (line : string) :
  pdb_line.pad line = line ->
  (length line <> 81%nat \/ recognizable line = false) ->
  pdb_line.normalize line = pdb_line.blank_line.
Proof.
  intros Hp H. unfold pdb_line.normalize. rewrite Hp.
  unfold pdb_line.fix_length.
  destruct (Nat.eqb_spec (length line) 81) as [E|E]; cbn [negb].
  - destruct H as [H|H]; [contradiction|].
    now rewrite fix_kind_recognizable, H.
  - reflexivity.
Qed.

Lemma pad_not_atom (line : string) :
  read_string line 1 4 <> "ATOM" -> pdb_line.pad line = line.
Proof.
  intros H. unfold pdb_line.pad.
  apply String.eqb_neq in H. rewrite H.
  now rewrite !andb_false_r.
Qed.

Lemma unrecognizable_not_atom (line : string) :
  recognizable line = false -> read_string line 1 4 <> "ATOM".
Proof.
  unfold recognizable. intros H. apply orb_false_elim in H as [_ H].
  now apply String.eqb_neq.
Qed.

(** Every field of a record that fills its columns is read back from its
    columns of the written line, in both layouts. *)
Lemma written_columns (a : pdb_line.t) (fmt : format) :
  well_sized a ->
  let out := write fmt a in
  read_string out 7 11 = pdb_line.serial a /\
  read_string out 17 0 = pdb_line.altloc a /\
  read_string out 31 38 = pdb_line.x a /\
  read_string out 39 46 = pdb_line.y a /\
  read_string out 47 54 = pdb_line.z a /\
  read_string out 55 60 = pdb_line.occ a /\
  read_string out 61 66 = pdb_line.tempfac a.
Proof.
  destruct a as [f1 f2 f3 f4 f5 f6 f7 f8 f9 f10 f11 f12 f13 f14 f15 f16 f17 f18].
  unfold well_sized. cbn [pdb_line.ATOM pdb_line.serial pdb_line.name
    pdb_line.altloc pdb_line.resname pdb_line.chain pdb_line.resnum
    pdb_line.icode pdb_line.x pdb_line.y pdb_line.z pdb_line.occ
    pdb_line.tempfac pdb_line.segid pdb_line.elename pdb_line.charge].
  intros (H1 & H2 & H3 & H4 & H5 & H6 & H7 & H9 & H10 & H11 & H12 & H13
          & H14 & H15 & H16 & H17).
  explode f1 H1. explode f2 H2. explode f3 H3. explode f4 H4.
  explode f5 H5. explode f6 H6. explode f7 H7. explode f9 H9.
  explode f10 H10. explode f11 H11. explode f12 H12. explode f13 H13.
  explode f14 H14. explode f15 H15. explode f16 H16. explode f17 H17.
  destruct fmt; repeat apply conj; reflexivity.
Qed.

(** C7: parsing a well-formed line and writing the record in either layout
    gives a line whose serial, alternate-location, x, y, z, occupancy and
    temperature-factor columns hold the same characters as the input's. *)
Theorem C7_roundtrip_passthrough (line : string) (fmt : format) :
  well_formed line = true ->
  let out := write fmt (pdb_line.init line) in
  read_string out 7 11 = read_string line 7 11 /\
  read_string out 17 0 = read_string line 17 0 /\
  read_string out 31 38 = read_string line 31 38 /\
  read_string out 39 46 = read_string line 39 46 /\
  read_string out 47 54 = read_string line 47 54 /\
  read_string out 55 60 = read_string line 55 60 /\
  read_string out 61 66 = read_string line 61 66.
Proof.
  intros Hwf out.
  pose proof (written_columns _ fmt (init_well_sized line)) as H.
  pose proof (init_fields line) as Hf. cbv zeta in H, Hf.
  rewrite (normalize_well_formed line Hwf) in Hf.
  destruct Hf as (_ & Hs & _ & Ha & _ & _ & _ & _ & _
                  & Hx & Hy & Hz & Ho & Ht & _).
  subst out. rewrite <- Hs, <- Ha, <- Hx, <- Hy, <- Hz, <- Ho, <- Ht.
  exact H.
Qed.

Lemma C7_roundtrip_passthrough_witness :
  well_formed atom_line_81 = true /\
  read_string (write pdb (pdb_line.init atom_line_81)) 31 38 = "  11.104" /\
  read_string (write charmm (pdb_line.init atom_line_81)) 7 11 = "   17".
Proof.
  split; [reflexivity|].
  split.
  - destruct (C7_roundtrip_passthrough atom_line_81 pdb) as (_ & _ & H & _);
      [reflexivity | exact H].
  - destruct (C7_roundtrip_passthrough atom_line_81 charmm) as (H & _);
      [reflexivity | exact H].
Defined.

(** C8, as the code has it: the normalised line always has 81 characters,
    being either the input itself or 80 characters and a terminator; a line
    of 2 to 80 characters that starts with ATOM is padded with blanks and a
    terminator; a HETATM line of any other length than 81, and every line
    that starts like neither kind, gives the all-blank record. *)
Theorem C8_normalization (line : string) :
  (length (pdb_line.normalize line) = 81%nat /\
   (pdb_line.normalize line = line \/
    exists body, length body = 80%nat /\
                 pdb_line.normalize line = body ++ nl)) /\
  ((1 < length line)%nat -> (length line < 81)%nat ->
   read_string line 1 4 = "ATOM" ->
   pdb_line.normalize line = line ++ spaces (80 - length line) ++ nl) /\
  (read_string line 1 6 = "HETATM" -> length line <> 81%nat ->
   pdb_line.init line = blank_record) /\
  (recognizable line = false -> pdb_line.init line = blank_record).
Proof.
  repeat apply conj.
  - apply normalize_length.
  - unfold pdb_line.normalize. rewrite fix_kind_recognizable.
    assert (Hb : exists body, length body = 80%nat /\
                   pdb_line.blank_line = body ++ nl)
      by (exists (spaces 80); split; reflexivity).
    destruct (recognizable _); [|now right].
    unfold pdb_line.fix_length.
    destruct (Nat.eqb_spec (length (pdb_line.pad line)) 81) as [E|E];
      cbn [negb]; [|now right].
    destruct (pad_length line) as [P|[P _]]; rewrite P; [now left|].
    right. exists (line ++ spaces (80 - length line)). split.
    + rewrite P, !length_app, length_spaces in E.
      change (length nl) with 1%nat in E.
      rewrite length_app, length_spaces. lia.
    + now rewrite append_assoc.
  - intros H1 H2 Ha.
    assert (P : pdb_line.pad line = line ++ spaces (80 - length line) ++ nl).
    { unfold pdb_line.pad.
      apply Nat.ltb_lt in H1, H2. rewrite H1, H2, Ha. reflexivity. }
    unfold pdb_line.normalize. rewrite fix_kind_recognizable.
    unfold pdb_line.fix_length. rewrite P.
    replace (length (line ++ spaces (80 - length line) ++ nl)) with 81%nat.
    2:{ rewrite !length_app, length_spaces. change (length nl) with 1%nat.
        lia. }
    cbn [Nat.eqb negb]. unfold recognizable.
    rewrite (read_string_app line _ 4 "ATOM")
      by first [assumption | reflexivity | lia].
    now rewrite orb_true_r.
  - intros Hh Hl. apply init_of_blank.
    apply normalize_unpadded; [|now left].
    apply pad_not_atom. now apply hetatm_not_atom.
  - intros Hr. apply init_of_blank.
    apply normalize_unpadded; [|now right].
    apply pad_not_atom. now apply unrecognizable_not_atom.
Qed.

Lemma C8_normalization_witness :
  pdb_line.normalize short_atom
    = short_atom ++ spaces (80 - length short_atom) ++ nl /\
  pdb_line.init short_hetatm = blank_record /\
  pdb_line.init ("REMARK   1" ++ nl) = blank_record.
Proof.
  split; [|split].
  - destruct (C8_normalization short_atom) as (_ & H & _).
    apply H; [vm_compute; lia | vm_compute; lia | reflexivity].
  - destruct (C8_normalization short_hetatm) as (_ & _ & H & _).
    apply H; [reflexivity | vm_compute; discriminate].
  - destruct (C8_normalization ("REMARK   1" ++ nl)) as (_ & _ & _ & H).
    apply H; reflexivity.
Defined.

(** A HETATM line of 55 characters is not padded: its fields are not read
    from the padded line, the record is blank. *)
Lemma C8_short_hetatm_not_padded :
  (length short_hetatm < 80)%nat /\
  read_string short_hetatm 1 6 = "HETATM" /\
  pdb_line.normalize short_hetatm
    <> short_hetatm ++ spaces (80 - length short_hetatm) ++ nl /\
  pdb_line.serial (pdb_line.init short_hetatm)
    <> read_string short_hetatm 7 11.
Proof.
  repeat apply conj.
  - vm_compute. lia.
  - reflexivity.
  - vm_compute. discriminate.
  - vm_compute. discriminate.
Qed.

(** ** Integers in text *)

Lemma all_chars_app (p : ascii -> bool) (a b : string) :
  all_chars p (a ++ b) = (all_chars p a && all_chars p b)%bool.
Proof.
  induction a as [|c a IH]; simpl; [reflexivity|].
  now rewrite IH, andb_assoc.
Qed.

Lemma all_chars_weaken (p q : ascii -> bool) (s : string) :
  (forall c, p c = true -> q c = true) ->
  all_chars p s = true -> all_chars q s = true.
Proof.
  intros Hpq. induction s as [|c s IH]; simpl; [reflexivity|].
  intros H. apply andb_prop in H as [H1 H2].
  now rewrite (Hpq _ H1), IH.
Qed.

Lemma lstrip_chars (q : ascii -> bool) (s : string) :
  (forall c, is_space c = true -> q c = true) ->
  all_chars q (lstrip s) = true -> all_chars q s = true.
Proof.
  intros Hq. induction s as [|c s IH]; simpl; [reflexivity|].
  destruct (is_space c) eqn:E.
  - intros H. now rewrite (Hq _ E), IH.
  - simpl. auto.
Qed.

Lemma rstrip_chars (q : ascii -> bool) (s : string) :
  (forall c, is_space c = true -> q c = true) ->
  all_chars q (rstrip s) = true -> all_chars q s = true.
Proof.
  intros Hq. induction s as [|c s IH]; simpl; [reflexivity|].
  destruct (rstrip s) as [|c' r'] eqn:E.
  - destruct (is_space c) eqn:Ec; simpl.
    + intros _. rewrite (Hq _ Ec). now apply IH.
    + rewrite andb_true_r. intros ->. now apply IH.
  - simpl. intros H. apply andb_prop in H as [-> H]. now apply IH.
Qed.

Lemma uint_of_string_digits (s : string) :
  forall d, NilEmpty.uint_of_string s = Some d ->
  all_chars is_digit s = true.
Proof.
  induction s as [|c s IH]; simpl; [reflexivity|].
  intros d. destruct (NilEmpty.uint_of_string s) as [d'|]; [|discriminate].
  intros H. rewrite (IH d' eq_refl), andb_true_r.
  apply uint_of_char_spec in H.
  decompose [or and] H; subst; reflexivity.
Qed.

Lemma digits_value_chars (s : string) (v : Z) :
  digits_value s = Some v -> all_chars is_digit s = true.
Proof.
  unfold digits_value, NilZero.uint_of_string.
  destruct s as [|c s]; [discriminate|].
  destruct (NilEmpty.uint_of_string (String c s)) as [d|] eqn:E;
    [|discriminate].
  intros _. exact (uint_of_string_digits _ _ E).
Qed.

Lemma space_int_char (c : ascii) : is_space c = true -> int_char c = true.
Proof. unfold int_char. now intros ->. Qed.

Lemma digit_int_char (c : ascii) : is_digit c = true -> int_char c = true.
Proof. unfold int_char. intros ->. now rewrite orb_true_r. Qed.

(** Text that [int()] accepts holds blanks, digits and signs only. *)
Lemma py_int_chars (s : string) (v : Z) :
  py_int s = Some v -> all_chars int_char s = true.
Proof.
  unfold py_int, strip. intros H.
  apply lstrip_chars; [exact space_int_char|].
  apply rstrip_chars; [exact space_int_char|].
  destruct (rstrip (lstrip s)) as [|c r]; [discriminate|].
  destruct (Ascii.eqb_spec c "-") as [->|_].
  - destruct (digits_value r) as [w|] eqn:E; [|discriminate].
    apply digits_value_chars in E.
    simpl. exact (all_chars_weaken _ _ _ digit_int_char E).
  - destruct (Ascii.eqb_spec c "+") as [->|_].
    + apply digits_value_chars in H.
      simpl. exact (all_chars_weaken _ _ _ digit_int_char H).
    + apply digits_value_chars in H.
      exact (all_chars_weaken _ _ _ digit_int_char H).
Qed.

Lemma alpha_not_int_char (c : ascii) :
  is_alpha c = true -> int_char c = false.
Proof.
  destruct c as [[] [] [] [] [] [] [] []]; vm_compute; congruence.
Qed.

(** C4: when columns 23-26 are not blank and columns 24-27 read as a larger
    integer than columns 23-26, the record's residue number is columns 24-27
    and its insertion code is one blank. *)
Theorem C4_wide_residue_number (line : string) (a b : Z) :
  let l := pdb_line.normalize line in
  read_string l 23 26 <> "    " ->
  py_int (read_string l 23 26) = Some a ->
  py_int (read_string l 24 27) = Some b ->
  a < b ->
  pdb_line.resnum (pdb_line.init line) = read_string l 24 27 /\
  pdb_line.icode (pdb_line.init line) = " ".
Proof.
  intros l Hnb Ha Hb Hlt.
  pose proof (normalize_length line) as Hl. fold l in Hl.
  assert (Hna : isalpha (read_string l 27 0) = false).
  { pose proof (py_int_chars _ _ Hb) as Hc.
    pose proof (read_string_length1 l 27 ltac:(lia) ltac:(lia)) as H1.
    unfold read_string, slice in Hc, H1 |- *.
    cbn [Nat.eqb Nat.sub] in Hc, H1 |- *.
    change 4%nat with (3 + 1)%nat in Hc.
    rewrite substring_split, all_chars_app in Hc.
    apply andb_prop in Hc as [_ Hc]. cbn [Nat.add] in Hc.
    destruct (substring 26 1 l) as [|c r]; [reflexivity|].
    destruct r; [|discriminate H1].
    simpl in Hc |- *. rewrite andb_true_r in Hc |- *.
    destruct (is_alpha c) eqn:E; [|reflexivity].
    apply alpha_not_int_char in E. congruence. }
  pose proof (init_fields line) as Hf. cbv zeta in Hf. fold l in Hf.
  destruct Hf as (_ & _ & _ & _ & _ & _ & Hr & _ & Hi & _).
  rewrite Hr, Hi. unfold pdb_line.alpha_fix. rewrite Hna. cbn [fst snd].
  unfold pdb_line.reconcile.
  apply String.eqb_neq in Hnb. rewrite Hnb, Ha, Hb.
  apply Z.ltb_lt in Hlt. rewrite Hlt. split; reflexivity.
Qed.

Lemma C4_wide_residue_number_witness :
  pdb_line.resnum (pdb_line.init wide_line) = "1000" /\
  pdb_line.icode (pdb_line.init wide_line) = " ".
Proof.
  change "1000" with (read_string (pdb_line.normalize wide_line) 24 27).
  apply (C4_wide_residue_number wide_line 100 1000).
  - vm_compute. discriminate.
  - reflexivity.
  - reflexivity.
  - lia.
Defined.

Lemma digit_not_space (c : ascii) : is_digit c = true -> is_space c = false.
Proof.
  destruct c as [[] [] [] [] [] [] [] []]; vm_compute; congruence.
Qed.

Lemma digit_not_sign (c : ascii) :
  is_digit c = true -> Ascii.eqb c "-" = false /\ Ascii.eqb c "+" = false.
Proof.
  destruct c as [[] [] [] [] [] [] [] []]; vm_compute; intuition congruence.
Qed.

Lemma string_of_uint_digits (d : Decimal.uint) :
  all_chars is_digit (NilEmpty.string_of_uint d) = true.
Proof. induction d; simpl; auto. Qed.

Lemma rstrip_no_space (s : string) :
  all_chars not_space s = true -> rstrip s = s.
Proof.
  induction s as [|c s IH]; simpl; [reflexivity|].
  intros H. apply andb_prop in H as [Hc Hs].
  rewrite (IH Hs). destruct s; [|reflexivity].
  apply negb_true_iff in Hc. now rewrite Hc.
Qed.

Lemma lstrip_no_space (s : string) :
  all_chars not_space s = true -> lstrip s = s.
Proof.
  destruct s as [|c s]; simpl; [reflexivity|].
  intros H. apply andb_prop in H as [Hc _].
  apply negb_true_iff in Hc. now rewrite Hc.
Qed.

Lemma strip_no_space (s : string) :
  all_chars not_space s = true -> strip s = s.
Proof.
  intros H. unfold strip. now rewrite (lstrip_no_space _ H), rstrip_no_space.
Qed.

Lemma digits_no_space (s : string) :
  all_chars is_digit s = true -> all_chars not_space s = true.
Proof.
  apply all_chars_weaken. intros c H. unfold not_space.
  now rewrite (digit_not_space _ H).
Qed.

Lemma lstrip_spaces (k : nat) (s : string) :
  lstrip (spaces k ++ s) = lstrip s.
Proof. induction k; simpl; auto. Qed.

Lemma uint_of_string_zeros (n : nat) (s : string) :
  NilEmpty.uint_of_string (zeros n ++ s)
  = option_map (Nat.iter n Decimal.D0) (NilEmpty.uint_of_string s).
Proof.
  induction n as [|n IH]; simpl.
  - now destruct (NilEmpty.uint_of_string s).
  - rewrite IH. now destruct (NilEmpty.uint_of_string s).
Qed.

Lemma of_uint_leading_zeros (n : nat) (d : Decimal.uint) :
  Z.of_uint (Nat.iter n Decimal.D0 d) = Z.of_uint d.
Proof. induction n as [|n IH]; simpl; [reflexivity | exact IH]. Qed.

(** The digits of a positive number, possibly after zeros, read back as the
    number. *)
Lemma digits_value_zeros (n : nat) (p : positive) :
  digits_value (zeros n ++ NilEmpty.string_of_uint (Pos.to_uint p))
  = Some (Z.pos p).
Proof.
  unfold digits_value, NilZero.uint_of_string.
  pose proof (uint_of_string_zeros n
                (NilEmpty.string_of_uint (Pos.to_uint p))) as H.
  rewrite NilEmpty.usu in H. cbn [option_map] in H.
  assert (Hne : exists c r,
             zeros n ++ NilEmpty.string_of_uint (Pos.to_uint p) = String c r).
  { pose proof (DecimalPos.Unsigned.to_uint_nonnil p) as Hn.
    destruct (Pos.to_uint p); [congruence | ..];
      destruct n; simpl; eauto. }
  destruct Hne as (c & r & E). rewrite E in H |- *.
  rewrite H. cbn [option_map]. rewrite of_uint_leading_zeros.
  unfold Z.of_uint. now rewrite DecimalPos.Unsigned.of_to.
Qed.

Lemma nonnil_string (d : Decimal.uint) :
  d <> Decimal.Nil ->
  NilZero.string_of_uint d = NilEmpty.string_of_uint d.
Proof. destruct d; [congruence | reflexivity ..]. Qed.

Lemma str_pos (p : positive) :
  str (Z.pos p) = NilEmpty.string_of_uint (Pos.to_uint p).
Proof.
  unfold str. cbn [Z.to_int NilZero.string_of_int].
  apply nonnil_string, DecimalPos.Unsigned.to_uint_nonnil.
Qed.

Lemma str_neg (p : positive) :
  str (Z.neg p) = String "-" (NilEmpty.string_of_uint (Pos.to_uint p)).
Proof.
  unfold str. cbn [Z.to_int NilZero.string_of_int]. f_equal.
  apply nonnil_string, DecimalPos.Unsigned.to_uint_nonnil.
Qed.

(** A non-empty run of digits is read by [int()] as its value. *)
Lemma py_int_digits (s : string) (v : Z) :
  all_chars is_digit s = true -> digits_value s = Some v ->
  py_int s = Some v.
Proof.
  intros Hd Hv. unfold py_int.
  rewrite (strip_no_space _ (digits_no_space _ Hd)).
  destruct s as [|c r]; [discriminate Hv|].
  pose proof Hd as Hd'. simpl in Hd'. apply andb_prop in Hd' as [Hc _].
  now destruct (digit_not_sign _ Hc) as [-> ->].
Qed.

Lemma pos_digits (n : nat) (p : positive) :
  all_chars is_digit (zeros n ++ NilEmpty.string_of_uint (Pos.to_uint p))
  = true.
Proof.
  rewrite all_chars_app, string_of_uint_digits, andb_true_r.
  induction n; simpl; auto.
Qed.

(** [int(str(n)) == n] *)
Lemma py_int_str (n : Z) : py_int (str n) = Some n.
Proof.
  destruct n as [|p|p].
  - reflexivity.
  - rewrite str_pos. apply py_int_digits.
    + apply (pos_digits 0).
    + apply (digits_value_zeros 0).
  - rewrite str_neg. unfold py_int.
    rewrite strip_no_space
      by (simpl; apply digits_no_space, string_of_uint_digits).
    change (Ascii.eqb "-" "-") with true. cbv iota.
    pose proof (digits_value_zeros 0 p) as H. cbn [zeros append] in H.
    now rewrite H.
Qed.

(** [int(rjust(str(n),w)) == n]: the residue numbers the engine writes are
    read back as written. *)
Lemma py_int_rjust_str (n : Z) (w : nat) : py_int (rjust (str n) w) = Some n.
Proof.
  pose proof (py_int_str n) as H. unfold py_int, strip, rjust in *.
  now rewrite lstrip_spaces.
Qed.

(** [int(zfill(str(n),w)) == n] for a positive counter. *)
Lemma py_int_zfill_str (p : positive) (w : nat) :
  py_int (zfill (str (Z.pos p)) w) = Some (Z.pos p).
Proof.
  rewrite str_pos. unfold zfill.
  pose proof (pos_digits 0 p) as Hd. cbn [zeros append] in Hd.
  destruct (NilEmpty.string_of_uint (Pos.to_uint p)) as [|c r] eqn:E.
  - pose proof (digits_value_zeros 0 p) as H. cbn [zeros append] in H.
    rewrite E in H. discriminate H.
  - simpl in Hd. apply andb_prop in Hd as [Hc _].
    destruct (digit_not_sign _ Hc) as [-> ->]. cbn [orb].
    rewrite <- E. apply py_int_digits.
    + apply pos_digits.
    + apply digits_value_zeros.
Qed.

(** Distinct positive counters give distinct labels. *)
Lemma E_label_inj (a b : Z) :
  0 < a -> 0 < b -> E_label a = E_label b -> a = b.
Proof.
  intros Ha Hb H. unfold E_label in H. cbn [append] in H.
  injection H as H.
  destruct a as [|p|p]; try lia. destruct b as [|q|q]; try lia.
  pose proof (py_int_zfill_str p 3) as H1.
  rewrite H, py_int_zfill_str in H1. congruence.
Qed.

(** ** The automatic engine *)

Section EngineFacts.

Context {FO : FloatOps}.

#[local] Abbreviation engine := (engine_of F).

Lemma generated_mono (n m : Z) (s : string) :
  n <= m -> generated n s -> generated m s.
Proof.
  intros Hnm [H|[H|(k & Hk & H)]]; [now left | now right; left |].
  right; right. exists k. split; [lia | exact H].
Qed.

Lemma generated_fresh (n : Z) (s : string) :
  1 <= n -> generated n s -> s <> E_label (n + 1).
Proof.
  intros Hn [H|[H|(k & Hk & H)]]; subst s; try discriminate.
  intros E. apply E_label_inj in E; lia.
Qed.

Lemma generated_not_blank (n : Z) (s : string) : generated n s -> s <> " ".
Proof. intros [H|[H|(k & Hk & H)]]; subst s; discriminate. Qed.

Lemma inherit_fields (st : engine) (a : pdb_line.t) :
  let b := inherit st a in
  pdb_line.resname b = pdb_line.resname a /\
  pdb_line.name b = pdb_line.name a /\
  pdb_line.chain b = pdb_line.chain a /\
  pdb_line.resnum b = pdb_line.resnum a /\
  pdb_line.x b = pdb_line.x a /\
  pdb_line.y b = pdb_line.y a /\
  pdb_line.z b = pdb_line.z a.
Proof.
  unfold inherit.
  destruct (pdb_line.segid a =? "    ")%string; cbn [pdb_line.segid pdb_line.set_segid];
    match goal with |- context [if ?c then _ else _] => destruct c end;
    repeat apply conj; reflexivity.
Qed.

Lemma distance_fields (lo : option (F * F * F)) (a b : pdb_line.t) :
  pdb_line.x a = pdb_line.x b -> pdb_line.y a = pdb_line.y b ->
  pdb_line.z a = pdb_line.z b -> distance lo a = distance lo b.
Proof. unfold distance. now intros -> -> ->. Qed.

(** The record that reaches the test of line 313, for an atom that is not
    named [" O  "]. *)
Lemma before_break_not_O (st : engine) (atom2 : pdb_line.t) :
  pdb_line.name atom2 <> " O  " ->
  before_break st atom2 =
    (a <- geometric_test (last_O_coor st)
            (inherit st
               (pdb_line.set_resnum (rjust (str (next_resnum st atom2)) 4)
                  atom2)) ;;
     Ok (last_O_coor st, a)).
Proof.
  intros Hn. unfold before_break, track_O.
  destruct (inherit_fields st
              (pdb_line.set_resnum (rjust (str (next_resnum st atom2)) 4) atom2))
    as (_ & Hname & _).
  rewrite Hname. cbn [pdb_line.name pdb_line.set_resnum].
  apply String.eqb_neq in Hn. rewrite Hn. reflexivity.
Qed.

(** Fields the non-water branch leaves as parsed on the way to line 313. *)
Lemma before_break_fields (st : engine) (atom2 a : pdb_line.t)
    (lo : option (F * F * F)) :
  before_break st atom2 = Ok (lo, a) ->
  pdb_line.resname a = pdb_line.resname atom2 /\
  pdb_line.chain a = pdb_line.chain atom2 /\
  pdb_line.name a = pdb_line.name atom2 /\
  pdb_line.resnum a = rjust (str (next_resnum st atom2)) 4.
Proof.
  unfold before_break.
  destruct (inherit_fields st
              (pdb_line.set_resnum (rjust (str (next_resnum st atom2)) 4) atom2))
    as (Hrn & Hname & Hch & Hnum & _).
  cbn [pdb_line.resname pdb_line.name pdb_line.chain pdb_line.resnum
       pdb_line.set_resnum] in Hrn, Hname, Hch, Hnum.
  set (b := inherit st _) in *.
  destruct (track_O st b) as [lo'|e]; cbn [bind]; [|discriminate].
  unfold geometric_test.
  destruct (pdb_line.name b =? " N  ")%string.
  - destruct (distance lo' b) as [d|e]; cbn [bind]; [|discriminate].
    destruct (fgt d three); intros [= <- <-];
      cbn [pdb_line.resname pdb_line.chain pdb_line.name pdb_line.resnum
           pdb_line.set_segid]; auto.
  - cbn [bind]. intros [= <- <-]. auto.
Qed.

(** What a new segment sets (lines 314-326). *)
Lemma open_segment_spec (st : engine) (lo : option (F * F * F))
    (marker : string) (a : pdb_line.t) (q : Z) :
  inv st ->
  (if resnum st =? 1 then q = 1 else py_int marker = Some q) ->
  exists st' a',
    open_segment st lo marker a = Ok (st', a') /\
    segid st' = segid st + 1 /\
    resnum st' = q /\
    original_segid st' = pdb_line.segid (atom1 st) /\
    original_resnum st' = marker /\
    last_O_coor st' = lo /\
    atom1 st' = atom1 st /\
    first_water st' = first_water st /\
    pdb_line.resnum a' = rjust (str q) 4 /\
    pdb_line.segid a' =
      (if (pdb_line.resname a =? "ACY ")%string
       then " ACY" else E_label (segid st + 1)) /\
    pdb_line.resname a' = pdb_line.resname a /\
    pdb_line.chain a' = pdb_line.chain a.
Proof.
  intros Hinv Hq. unfold open_segment, int_.
  rewrite (inv_resnum st Hinv), py_int_rjust_str. cbn [bind].
  destruct (resnum st =? 1) eqn:E; cbn [negb].
  - subst q. cbn [bind].
    cbn [pdb_line.resname pdb_line.set_segid pdb_line.set_resnum].
    do 2 eexists. split; [reflexivity|].
    destruct (pdb_line.resname a =? "ACY ")%string;
      repeat apply conj; reflexivity.
  - rewrite Hq. cbn [bind].
    cbn [pdb_line.resname pdb_line.set_segid pdb_line.set_resnum].
    do 2 eexists. split; [reflexivity|].
    destruct (pdb_line.resname a =? "ACY ")%string;
      repeat apply conj; reflexivity.
Qed.

Lemma finish_fields (st : engine) (a : pdb_line.t) :
  let '(st', a') := finish st a in
  atom1 st' = a' /\
  segid st' = segid st /\ resnum st' = resnum st /\
  last_O_coor st' = last_O_coor st /\
  chain st' = pdb_line.chain a /\
  pdb_line.segid a' = pdb_line.segid a /\
  pdb_line.resnum a' = pdb_line.resnum a /\
  pdb_line.resname a' = pdb_line.resname a /\
  pdb_line.chain a' = " " /\
  pdb_line.ATOM a' = "ATOM  " /\
  pdb_line.elename a' = "  ".
Proof. unfold finish. repeat apply conj; reflexivity. Qed.

(** What the non-water branch returns when it returns: the record of line
    313 after a possible new segment, with the oxygen of [before_break]. *)
Lemma nonwater_fields (st st1 : engine) (atom2 a1 : pdb_line.t) :
  nonwater st atom2 = Ok (st1, a1) ->
  pdb_line.resname a1 = pdb_line.resname atom2 /\
  exists lo a, before_break st atom2 = Ok (lo, a) /\ last_O_coor st1 = lo.
Proof.
  intros E. unfold nonwater in E.
  destruct (before_break st atom2) as [[lo a]|e] eqn:B; cbn [bind] in E;
    [|discriminate].
  destruct (before_break_fields _ _ _ _ B) as (Hr & _).
  destruct (break_needed st a).
  - unfold open_segment in E.
    destruct (int_ (pdb_line.resnum (atom1 st))) as [p|e]; cbn [bind] in E;
      [|discriminate].
    destruct (if negb (p =? 1) then int_ (pdb_line.resnum atom2) else Ok 1);
      cbn [bind] in E; [|discriminate].
    cbn [pdb_line.resname pdb_line.set_segid pdb_line.set_resnum] in E.
    injection E as <- <-. split.
    + destruct (pdb_line.resname a =? "ACY ")%string; exact Hr.
    + exists lo, a. split; reflexivity.
  - injection E as <- <-. split; [exact Hr|].
    exists lo, a. split; reflexivity.
Qed.

(** A residue that is not water goes through the first branch only. *)
Lemma step_nonwater (st : engine) (atom2 : pdb_line.t) :
  is_water (pdb_line.resname atom2) = false ->
  step st atom2 = (r <- nonwater st atom2 ;; Ok (finish (fst r) (snd r))).
Proof.
  intros Hw. unfold step. rewrite Hw. cbn [negb].
  destruct (nonwater st atom2) as [[st1 a1]|e] eqn:E; cbn [bind];
    [|reflexivity].
  cbn [fst snd].
  destruct (nonwater_fields _ _ _ _ E) as (Hr & _).
  rewrite Hr, Hw. reflexivity.
Qed.

(** A water residue goes through the second branch only. *)
Lemma step_water (st : engine) (atom2 : pdb_line.t) :
  is_water (pdb_line.resname atom2) = true ->
  step st atom2 = (r <- water st atom2 ;; Ok (finish (fst r) (snd r))).
Proof.
  intros Hw. unfold step. rewrite Hw. cbn [negb bind fst snd].
  rewrite Hw. reflexivity.
Qed.

Lemma break_needed_false (st : engine) (a : pdb_line.t) :
  break_needed st a = false ->
  chain st = pdb_line.chain a /\
  pdb_line.segid a = pdb_line.segid (atom1 st).
Proof.
  unfold break_needed. intros H. apply orb_false_elim in H as [H1 H2].
  apply negb_false_iff in H1, H2.
  split; now apply String.eqb_eq.
Qed.

Lemma water_spec (st st' : engine) (atom2 a' : pdb_line.t) :
  water st atom2 = Ok (st', a') ->
  pdb_line.segid a' = " WAT" /\
  pdb_line.resnum a' = rjust (str (resnum st')) 4 /\
  pdb_line.resname a' = pdb_line.resname atom2 /\
  segid st' = segid st /\
  last_O_coor st' = last_O_coor st.
Proof.
  unfold water.
  destruct (if first_water st =? 0 then (0, 1)
            else (resnum st, first_water st)) as [r fw].
  cbn [pdb_line.name pdb_line.set_segid].
  destruct (strip (pdb_line.name atom2)) as [|c s]; [discriminate|].
  intros [= <- <-]. repeat apply conj; reflexivity.
Qed.

Lemma nonwater_result (st st1 : engine) (atom2 a1 : pdb_line.t) :
  inv st -> nonwater st atom2 = Ok (st1, a1) ->
  1 <= segid st1 /\
  generated (segid st1) (pdb_line.segid a1) /\
  pdb_line.resnum a1 = rjust (str (resnum st1)) 4.
Proof.
  intros Hinv E. unfold nonwater in E.
  destruct (before_break st atom2) as [[lo a]|e] eqn:B; cbn [bind] in E;
    [|discriminate].
  destruct (before_break_fields _ _ _ _ B) as (_ & _ & _ & Hnum).
  pose proof (inv_segid st Hinv) as Hs.
  destruct (break_needed st a) eqn:Bn.
  - unfold open_segment, int_ in E.
    rewrite (inv_resnum st Hinv), py_int_rjust_str in E. cbn [bind] in E.
    destruct (if negb (resnum st =? 1)
              then match py_int (pdb_line.resnum atom2) with
                   | Some v => Ok v
                   | None => Raise ValueError
                   end
              else Ok 1) as [q|e]; cbn [bind] in E; [|discriminate].
    cbn [pdb_line.resname pdb_line.set_segid pdb_line.set_resnum] in E.
    injection E as <- <-. cbn [segid resnum].
    split; [lia|]. split.
    + destruct (pdb_line.resname a =? "ACY ")%string;
        cbn [pdb_line.segid pdb_line.set_segid pdb_line.set_resnum].
      * right; left; reflexivity.
      * right; right. exists (segid st + 1). split; [lia | reflexivity].
    + destruct (pdb_line.resname a =? "ACY ")%string; reflexivity.
  - injection E as <- <-. cbn [segid resnum].
    destruct (break_needed_false _ _ Bn) as [_ Hseg].
    split; [exact Hs|]. split; [|exact Hnum].
    rewrite Hseg. apply (inv_label st Hinv).
Qed.

(** The first record leaves the engine in a state of the invariant, with no
    oxygen remembered. *)
Lemma first_record_inv (line1 : string) (st : engine) (a : pdb_line.t) :
  first_record line1 = Ok (st, a) ->
  inv st /\ atom1 st = a /\ last_O_coor st = None /\
  pdb_line.segid a = E_label 1.
Proof.
  unfold first_record.
  destruct (if negb (pdb_line.resnum (pdb_line.init line1) =? "")%string
            then v <- int_ (pdb_line.resnum (pdb_line.init line1)) ;;
                 (if negb (v =? 1)
                  then int_ (pdb_line.resnum (pdb_line.init line1))
                  else Ok 1)
            else Ok 1) as [r|e]; cbn [bind]; [|discriminate].
  intros [= <- <-]. repeat apply conj; try reflexivity.
  constructor; cbn [segid resnum atom1].
  - lia.
  - right; right. exists 1. split; [lia | reflexivity].
  - reflexivity.
Qed.

(** Every iteration keeps the invariant, and the record it writes is the
    next iteration's [atom1]. *)
Lemma step_inv (st st' : engine) (atom2 a' : pdb_line.t) :
  inv st -> step st atom2 = Ok (st', a') ->
  inv st' /\ atom1 st' = a'.
Proof.
  intros Hinv E.
  destruct (is_water (pdb_line.resname atom2)) eqn:Hw.
  - rewrite (step_water _ _ Hw) in E.
    destruct (water st atom2) as [[st1 a1]|e] eqn:W; cbn [bind fst snd] in E;
      [|discriminate].
    destruct (water_spec _ _ _ _ W) as (Hseg & Hnum & _ & Hs & _).
    injection E as <- <-. split; [|reflexivity].
    constructor; cbn [segid resnum atom1 finish fst
                      pdb_line.segid pdb_line.resnum pdb_line.set_chain
                      pdb_line.set_ATOM pdb_line.set_elename].
    + rewrite Hs. apply (inv_segid st Hinv).
    + rewrite Hseg. now left.
    + exact Hnum.
  - rewrite (step_nonwater _ _ Hw) in E.
    destruct (nonwater st atom2) as [[st1 a1]|e] eqn:W; cbn [bind fst snd] in E;
      [|discriminate].
    destruct (nonwater_result _ _ _ _ Hinv W) as (Hs & Hg & Hnum).
    injection E as <- <-. split; [|reflexivity].
    constructor; cbn [segid resnum atom1 finish fst
                      pdb_line.segid pdb_line.resnum pdb_line.set_chain
                      pdb_line.set_ATOM pdb_line.set_elename]; assumption.
Qed.

(** The residue name of a written record is the one parsed. *)
Lemma step_resname (st st' : engine) (atom2 a' : pdb_line.t) :
  step st atom2 = Ok (st', a') ->
  pdb_line.resname a' = pdb_line.resname atom2.
Proof.
  intros E. destruct (is_water (pdb_line.resname atom2)) eqn:Hw.
  - rewrite (step_water _ _ Hw) in E.
    destruct (water st atom2) as [[st1 a1]|e] eqn:W; cbn [bind fst snd] in E;
      [|discriminate].
    destruct (water_spec _ _ _ _ W) as (_ & _ & Hr & _).
    injection E as _ <-. exact Hr.
  - rewrite (step_nonwater _ _ Hw) in E.
    destruct (nonwater st atom2) as [[st1 a1]|e] eqn:W; cbn [bind fst snd] in E;
      [|discriminate].
    destruct (nonwater_fields _ _ _ _ W) as (Hr & _).
    injection E as _ <-. exact Hr.
Qed.

(** Inside the loop a water record is always written with [" WAT"]. *)
Lemma step_water_segid (st st' : engine) (atom2 a' : pdb_line.t) :
  step st atom2 = Ok (st', a') ->
  is_water (pdb_line.resname a') = true ->
  pdb_line.segid a' = " WAT".
Proof.
  intros E Hw. rewrite (step_resname _ _ _ _ E) in Hw.
  rewrite (step_water _ _ Hw) in E.
  destruct (water st atom2) as [[st1 a1]|e] eqn:W; cbn [bind fst snd] in E;
    [|discriminate].
  destruct (water_spec _ _ _ _ W) as (Hs & _).
  injection E as _ <-. exact Hs.
Qed.

Lemma loop_water_segid (file : list string) :
  forall st, Forall (fun a => is_water (pdb_line.resname a) = true ->
                              pdb_line.segid a = " WAT")
                    (fst (loop st file)).
Proof.
  induction file as [|l rest IH]; intros st; simpl; [constructor|].
  destruct (check_line l).
  - destruct (step st (pdb_line.init l)) as [[st' a']|e] eqn:E;
      [|constructor].
    specialize (IH st'). destruct (loop st' rest) as [out r].
    constructor; [|exact IH].
    exact (step_water_segid _ _ _ _ E).
  - destruct (l =? "")%string; [constructor | apply IH].
Qed.

(** The whole loop keeps the invariant. *)
Lemma loop_inv (file : list string) :
  forall st out st', inv st -> loop st file = (out, Ok st') -> inv st'.
Proof.
  induction file as [|l rest IH]; intros st out st' Hinv; simpl.
  - now intros [= _ <-].
  - destruct (check_line l).
    + destruct (step st (pdb_line.init l)) as [[st1 a1]|e] eqn:E;
        [|discriminate].
      destruct (step_inv _ _ _ _ Hinv E) as [Hinv1 _].
      destruct (loop st1 rest) as [out1 r1] eqn:L.
      intros [= _ ->]. exact (IH _ _ _ Hinv1 L).
    + destruct (l =? "")%string; [now intros [= _ <-] | apply IH, Hinv].
Qed.

(** Reading on after a prefix of non-empty lines that was processed without
    an exception. *)
Lemma loop_app (pre rest : list string) :
  forall st out st',
  ~ In "" pre -> loop st pre = (out, Ok st') ->
  loop st (pre ++ rest)%list
  = ((out ++ fst (loop st' rest))%list, snd (loop st' rest)).
Proof.
  induction pre as [|l pre IH]; intros st out st' Hne; simpl.
  - intros [= <- <-]. now destruct (loop st rest).
  - assert (Hl : l <> "") by (intros ->; apply Hne; now left).
    assert (Hne' : ~ In "" pre) by (intros H; apply Hne; now right).
    destruct (check_line l).
    + destruct (step st (pdb_line.init l)) as [[st1 a1]|e]; [|discriminate].
      destruct (loop st1 pre) as [out1 r1] eqn:L.
      intros [= <- ->]. rewrite (IH _ _ _ Hne' L). reflexivity.
    + apply String.eqb_neq in Hl. rewrite Hl. apply IH, Hne'.
Qed.

Lemma step_no_oxygen (st st' : engine) (atom2 a' : pdb_line.t) :
  last_O_coor st = None -> is_oxygen atom2 = false ->
  step st atom2 = Ok (st', a') -> last_O_coor st' = None.
Proof.
  intros Hn Ho E. unfold is_oxygen in Ho.
  destruct (is_water (pdb_line.resname atom2)) eqn:Hw.
  - rewrite (step_water _ _ Hw) in E.
    destruct (water st atom2) as [[st1 a1]|e] eqn:W; cbn [bind fst snd] in E;
      [|discriminate].
    destruct (water_spec _ _ _ _ W) as (_ & _ & _ & _ & Hl).
    injection E as <- _. cbn [last_O_coor finish fst]. congruence.
  - cbn [negb andb] in Ho. apply String.eqb_neq in Ho.
    rewrite (step_nonwater _ _ Hw) in E.
    destruct (nonwater st atom2) as [[st1 a1]|e] eqn:W; cbn [bind fst snd] in E;
      [|discriminate].
    destruct (nonwater_fields _ _ _ _ W) as (_ & lo & a & B & Hl).
    rewrite (before_break_not_O _ _ Ho) in B.
    destruct (geometric_test _ _); cbn [bind] in B; [|discriminate].
    injection B as <- _.
    injection E as <- _. cbn [last_O_coor finish fst]. congruence.
Qed.

Lemma loop_no_oxygen (file : list string) :
  forall st out st',
  last_O_coor st = None ->
  (forall l, In l file -> is_oxygen (pdb_line.init l) = false) ->
  loop st file = (out, Ok st') -> last_O_coor st' = None.
Proof.
  induction file as [|l rest IH]; intros st out st' Hn Hno; simpl.
  - now intros [= _ <-].
  - assert (Hno' : forall l', In l' rest ->
                     is_oxygen (pdb_line.init l') = false)
      by (intros l' H; apply Hno; now right).
    destruct (check_line l).
    + destruct (step st (pdb_line.init l)) as [[st1 a1]|e] eqn:E;
        [|discriminate].
      pose proof (step_no_oxygen _ _ _ _ Hn (Hno l (or_introl eq_refl)) E)
        as Hn1.
      destruct (loop st1 rest) as [out1 r1] eqn:L.
      intros [= _ ->]. exact (IH _ _ _ Hn1 Hno' L).
    + destruct (l =? "")%string; [now intros [= _ <-] | now apply IH].
Qed.

(** With no oxygen remembered, a non-water atom named [" N  "] stops the
    engine: reading [last_O_coor] raises. *)
Lemma step_unbound (st : engine) (atom2 : pdb_line.t) :
  last_O_coor st = None ->
  is_water (pdb_line.resname atom2) = false ->
  pdb_line.name atom2 = " N  " ->
  step st atom2 = Raise UnboundLocalError.
Proof.
  intros Hn Hw Hname.
  rewrite (step_nonwater _ _ Hw). unfold nonwater.
  rewrite before_break_not_O by (rewrite Hname; discriminate).
  unfold geometric_test.
  destruct (inherit_fields st
              (pdb_line.set_resnum (rjust (str (next_resnum st atom2)) 4) atom2))
    as (_ & Hnm & _).
  rewrite Hnm. cbn [pdb_line.name pdb_line.set_resnum].
  rewrite Hname, Hn. reflexivity.
Qed.

(** C9: when the first record was handled, the records after it were
    processed without an exception and none of them was a non-water atom
    named [" O  "], a non-water atom named [" N  "] ends the run with the
    exception of an unbound local, after the records already written. *)
Theorem C9_nitrogen_before_oxygen
    (line1 lineN : string) (pre post : list string)
    (st0 st : engine) (a1 : pdb_line.t) (out : list pdb_line.t) :
  check_line line1 = true ->
  first_record line1 = Ok (st0, a1) ->
  ~ In "" pre ->
  (forall l, In l pre -> is_oxygen (pdb_line.init l) = false) ->
  loop st0 pre = (out, Ok st) ->
  check_line lineN = true ->
  is_water (pdb_line.resname (pdb_line.init lineN)) = false ->
  pdb_line.name (pdb_line.init lineN) = " N  " ->
  emitted (line1 :: pre ++ lineN :: post)%list
  = (a1 :: out, Raise UnboundLocalError).
Proof.
  intros Hc1 Hf Hne Hno Hl HcN Hw Hname.
  destruct (first_record_inv _ _ _ Hf) as (_ & _ & Hn0 & _).
  pose proof (loop_no_oxygen _ _ _ _ Hn0 Hno Hl) as Hn.
  unfold emitted. cbn [read_relevant_line]. rewrite Hc1. cbn [negb andb].
  rewrite Hf, (loop_app pre (lineN :: post) _ _ _ Hne Hl).
  cbn [loop]. rewrite HcN, (step_unbound _ _ Hn Hw Hname).
  cbn [fst snd bind]. now rewrite app_nil_r.
Qed.

Lemma restart_exists (st : engine) (atom2 : pdb_line.t) :
  (resnum st <> 1 -> exists q, py_int (pdb_line.resnum atom2) = Some q) ->
  exists q, restart st atom2 q.
Proof.
  intros H. unfold restart. destruct (Z.eqb_spec (resnum st) 1) as [E|E].
  - now exists 1.
  - exact (H E).
Qed.

(** An iteration that opens a new segment. *)
Lemma step_break (st : engine) (atom2 a : pdb_line.t)
    (lo : option (F * F * F)) (q : Z) :
  inv st ->
  is_water (pdb_line.resname atom2) = false ->
  before_break st atom2 = Ok (lo, a) ->
  break_needed st a = true ->
  restart st atom2 q ->
  exists st' a',
    step st atom2 = Ok (st', a') /\
    resnum st' = q /\
    pdb_line.resnum a' = rjust (str q) 4 /\
    segid st' = segid st + 1 /\
    pdb_line.segid a' =
      (if (pdb_line.resname atom2 =? "ACY ")%string
       then " ACY" else E_label (segid st + 1)).
Proof.
  intros Hinv Hw B Bn Hq.
  destruct (before_break_fields _ _ _ _ B) as (Hr & _).
  destruct (open_segment_spec st lo (pdb_line.resnum atom2) a q Hinv Hq)
    as (st1 & a1 & Ho & Hs & Hn & _ & _ & _ & _ & _ & Hnum & Hseg & _).
  rewrite (step_nonwater _ _ Hw). unfold nonwater.
  rewrite B. cbn [bind]. rewrite Bn, Ho. cbn [bind fst snd].
  do 2 eexists. split; [reflexivity|].
  cbn [finish fst snd resnum segid pdb_line.resnum pdb_line.segid
       pdb_line.set_chain pdb_line.set_ATOM pdb_line.set_elename].
  rewrite <- Hr. auto.
Qed.

Lemma inherit_set_resnum (st : engine) (a : pdb_line.t) (r : string) :
  break_needed st (inherit st (pdb_line.set_resnum r a))
  = break_needed st (inherit st a).
Proof.
  unfold break_needed, inherit.
  cbn [pdb_line.segid pdb_line.set_resnum].
  destruct (pdb_line.segid a =? "    ")%string;
    cbn [pdb_line.segid pdb_line.set_segid pdb_line.set_resnum].
  - destruct (pdb_line.segid (atom1 st) =? original_segid st)%string;
      reflexivity.
  - destruct (pdb_line.segid a =? original_segid st)%string; reflexivity.
Qed.

(** The record of line 313 for an atom named [" N  "] whose distance to the
    remembered oxygen is [d]. *)
Lemma before_break_N (st : engine) (atom2 : pdb_line.t) (d : F) :
  pdb_line.name atom2 = " N  " ->
  distance (last_O_coor st) atom2 = Ok d ->
  let b := inherit st
             (pdb_line.set_resnum (rjust (str (next_resnum st atom2)) 4)
                atom2) in
  before_break st atom2
  = Ok (last_O_coor st,
        if fgt d three then pdb_line.set_segid " " b else b).
Proof.
  intros Hname Hd b.
  rewrite before_break_not_O by (rewrite Hname; discriminate).
  fold b. unfold geometric_test.
  destruct (inherit_fields st
              (pdb_line.set_resnum (rjust (str (next_resnum st atom2)) 4) atom2))
    as (_ & Hnm & _ & _ & Hx & Hy & Hz).
  fold b in Hnm, Hx, Hy, Hz.
  rewrite Hnm. cbn [pdb_line.name pdb_line.set_resnum].
  rewrite Hname. cbn [String.eqb Ascii.eqb Bool.eqb].
  rewrite (distance_fields _ b atom2 Hx Hy Hz), Hd. reflexivity.
Qed.

(** C2, as the code has it: for a non-water atom named [" N  "] whose
    distance [d] to the remembered oxygen is greater than 3.00, a new segment
    is opened and the record is written with the new label, which differs
    from the previous record's unless the residue is ACY; when [d] is not
    greater than 3.00 and neither the chain nor the inherited segid differs,
    the record is written with the previous record's segment id. *)
Theorem C2_chain_break (st : engine) (atom2 : pdb_line.t) (d : F) :
  inv st ->
  is_water (pdb_line.resname atom2) = false ->
  pdb_line.name atom2 = " N  " ->
  distance (last_O_coor st) atom2 = Ok d ->
  (fgt d three = true ->
   (resnum st <> 1 -> exists q, py_int (pdb_line.resnum atom2) = Some q) ->
   exists st' a',
     step st atom2 = Ok (st', a') /\
     segid st' = segid st + 1 /\
     pdb_line.segid a' =
       (if (pdb_line.resname atom2 =? "ACY ")%string
        then " ACY" else E_label (segid st + 1)) /\
     (pdb_line.resname atom2 <> "ACY " ->
      pdb_line.segid a' <> pdb_line.segid (atom1 st))) /\
  (fgt d three = false ->
   break_needed st (inherit st atom2) = false ->
   exists st' a',
     step st atom2 = Ok (st', a') /\
     segid st' = segid st /\
     pdb_line.segid a' = pdb_line.segid (atom1 st)).
Proof.
  intros Hinv Hw Hname Hd.
  pose proof (before_break_N st atom2 d Hname Hd) as B. cbv zeta in B.
  split.
  - intros Hfar Hq. rewrite Hfar in B.
    destruct (restart_exists _ _ Hq) as [q Hr].
    assert (Bn : break_needed st
                   (pdb_line.set_segid " "
                      (inherit st
                         (pdb_line.set_resnum
                            (rjust (str (next_resnum st atom2)) 4) atom2)))
                 = true).
    { unfold break_needed. cbn [pdb_line.segid pdb_line.set_segid].
      pose proof (generated_not_blank _ _ (inv_label st Hinv)) as Hnb.
      assert (E : (" " =? pdb_line.segid (atom1 st))%string = false)
        by (apply String.eqb_neq; congruence).
      rewrite E. apply orb_true_r. }
    destruct (step_break _ _ _ _ q Hinv Hw B Bn Hr)
      as (st' & a' & Hs & _ & _ & Hseg & Hlab).
    exists st', a'. repeat apply conj; try assumption.
    intros Hacy. apply String.eqb_neq in Hacy. rewrite Hlab, Hacy.
    intros E. symmetry in E.
    exact (generated_fresh _ _ (inv_segid st Hinv) (inv_label st Hinv) E).
  - intros Hnear Hnb. rewrite Hnear in B.
    rewrite <- (inherit_set_resnum st atom2
                  (rjust (str (next_resnum st atom2)) 4)) in Hnb.
    rewrite (step_nonwater _ _ Hw). unfold nonwater.
    rewrite B. cbn [bind]. rewrite Hnb. cbn [bind fst snd].
    do 2 eexists. split; [reflexivity|].
    cbn [finish fst snd segid pdb_line.segid
         pdb_line.set_chain pdb_line.set_ATOM pdb_line.set_elename].
    split; [reflexivity|].
    now destruct (break_needed_false _ _ Hnb).
Qed.

(** C3, as the code has it: when the test of line 313 holds (the chain or
    the segid, after inheritance and the geometric test, differs from the
    previous record's), the residue counter becomes 1 if the previous record
    was written with residue number 1 and otherwise the residue number the
    current record had in the input; the segment counter is incremented and
    the record's segment id is ["E"] and the counter zero-filled to 3 digits,
    or [" ACY"] for an ACY residue. *)
Theorem C3_new_segment (st : engine) (atom2 a : pdb_line.t)
    (lo : option (F * F * F)) :
  inv st ->
  is_water (pdb_line.resname atom2) = false ->
  before_break st atom2 = Ok (lo, a) ->
  break_needed st a = true ->
  (resnum st <> 1 -> exists q, py_int (pdb_line.resnum atom2) = Some q) ->
  exists st' a' q,
    step st atom2 = Ok (st', a') /\
    py_int (pdb_line.resnum (atom1 st)) = Some (resnum st) /\
    (if resnum st =? 1 then q = 1
     else py_int (pdb_line.resnum atom2) = Some q) /\
    resnum st' = q /\
    pdb_line.resnum a' = rjust (str q) 4 /\
    segid st' = segid st + 1 /\
    pdb_line.segid a' =
      (if (pdb_line.resname atom2 =? "ACY ")%string
       then " ACY" else E_label (segid st + 1)).
Proof.
  intros Hinv Hw B Bn Hq.
  destruct (restart_exists _ _ Hq) as [q Hr].
  destruct (step_break _ _ _ _ q Hinv Hw B Bn Hr)
    as (st' & a' & Hs & Hn & Hnum & Hseg & Hlab).
  exists st', a', q. repeat apply conj; try assumption.
  rewrite (inv_resnum st Hinv). apply py_int_rjust_str.
Qed.

End EngineFacts.

Lemma step_cleared {FO : FloatOps} (st st' : engine_of F)
    (atom2 a' : pdb_line.t) :
  step st atom2 = Ok (st', a') -> cleared a'.
Proof.
  unfold step. intros E.
  destruct (if negb (is_water (pdb_line.resname atom2))
            then nonwater st atom2 else Ok (st, atom2)) as [r1|e];
    cbn [bind] in E; [|discriminate].
  destruct (if is_water (pdb_line.resname (snd r1))
            then water (fst r1) (snd r1) else Ok r1) as [r2|e];
    cbn [bind] in E; [|discriminate].
  injection E as _ <-. repeat split.
Qed.

Lemma loop_cleared {FO : FloatOps} (file : list string) :
  forall st, Forall cleared (fst (loop st file)).
Proof.
  induction file as [|l rest IH]; intros st; simpl; [constructor|].
  destruct (check_line l).
  - destruct (step st (pdb_line.init l)) as [[st' a']|e] eqn:E;
      [|constructor].
    specialize (IH st'). destruct (loop st' rest) as [out r].
    constructor; [exact (step_cleared _ _ _ _ E) | exact IH].
  - destruct (l =? "")%string; [constructor | apply IH].
Qed.

Lemma emitted_cleared {FO : FloatOps} (file : list string) :
  Forall cleared (fst (emitted file)).
Proof.
  unfold emitted. destruct (read_relevant_line file) as [line1 rest].
  destruct (first_record line1) as [[st a1]|e] eqn:E; [|constructor].
  pose proof (loop_cleared rest st) as H.
  destruct (loop st rest) as [out r]. constructor; [|exact H].
  unfold first_record in E.
  destruct (if negb (pdb_line.resnum (pdb_line.init line1) =? "")%string
            then v <- int_ (pdb_line.resnum (pdb_line.init line1)) ;;
                 (if negb (v =? 1)
                  then int_ (pdb_line.resnum (pdb_line.init line1))
                  else Ok 1)
            else Ok 1) as [r'|e]; cbn [bind] in E; [|discriminate].
  injection E as _ <-. repeat split.
Qed.

(** ** The range engine *)

Lemma set_segid_twice (s t : string) (a : pdb_line.t) :
  pdb_line.set_segid s (pdb_line.set_segid t a) = pdb_line.set_segid s a.
Proof. reflexivity. Qed.

Lemma assign_spec (ranges : list (Z * Z)) :
  forall (M i n : Z) (atom : pdb_line.t),
  py_int (pdb_line.resnum atom) = Some n ->
  assign M i ranges atom =
    Ok (match spec_first_range n ranges with
        | Some j => pdb_line.set_segid (E_label (i + Z.of_nat j + 1)) atom
        | None =>
            match ranges with
            | [] => atom
            | _ => pdb_line.set_segid (E_label (M + 1)) atom
            end
        end).
Proof.
  induction ranges as [|[b e] rest IH]; intros M i n atom Hn;
    [reflexivity|].
  cbn [assign spec_first_range]. unfold int_. rewrite Hn. cbn [bind].
  unfold in_range.
  replace (n <? e + 1) with (n <=? e)
    by (destruct (Z.leb_spec n e), (Z.ltb_spec n (e + 1)); lia || reflexivity).
  destruct ((b <=? n) && (n <=? e))%bool.
  - do 2 f_equal. unfold E_label. do 3 f_equal. lia.
  - rewrite (IH M (i + 1) n) by exact Hn.
    destruct (spec_first_range n rest) as [j|]; cbn [option_map].
    + rewrite set_segid_twice. do 2 f_equal. unfold E_label.
      do 3 f_equal. lia.
    + destruct rest; [reflexivity | now rewrite set_segid_twice].
Qed.

(** C5: with a table that is not empty and a residue number that reads as
    the integer [n], the record gets the label of the first range holding
    [n], both ends included, or the label after the last range when none
    does; the label is never blank. *)
Theorem C5_range_assignment (ranges : list (Z * Z)) (line : string) (n : Z) :
  ranges <> [] ->
  py_int (pdb_line.resnum (pdb_line.init line)) = Some n ->
  exists atom,
    segid_record ranges line = Ok atom /\
    pdb_line.segid atom = spec_range_label n ranges /\
    pdb_line.segid atom <> "    ".
Proof.
  intros Hne Hn. unfold segid_record.
  rewrite (assign_spec ranges _ 0 n) by exact Hn.
  eexists. split; [reflexivity|].
  unfold spec_range_label.
  destruct (spec_first_range n ranges) as [j|].
  - cbn [pdb_line.segid pdb_line.set_segid]. split; [|discriminate].
    unfold E_label. do 3 f_equal.
  - destruct ranges as [|r rest]; [congruence|].
    cbn [pdb_line.segid pdb_line.set_segid]. split; [reflexivity|discriminate].
Qed.

Lemma C5_range_assignment_witness :
  exists atom,
    segid_record [(1, 13); (40, 50); (10, 60)] atom_line_81 = Ok atom /\
    pdb_line.segid atom = "E002" /\
    pdb_line.segid atom <> "    ".
Proof.
  apply (C5_range_assignment [(1, 13); (40, 50); (10, 60)] atom_line_81 42).
  - discriminate.
  - reflexivity.
Defined.

Lemma assign_relabels (ranges : list (Z * Z)) :
  forall (M i : Z) (atom a : pdb_line.t),
  assign M i ranges atom = Ok a ->
  a = pdb_line.set_segid (pdb_line.segid a) atom.
Proof.
  induction ranges as [|[b e] rest IH]; intros M i atom a; cbn [assign].
  - intros [= <-]. now destruct atom.
  - destruct (int_ (pdb_line.resnum atom)) as [n|err]; cbn [bind];
      [|discriminate].
    destruct (in_range n b (e + 1)).
    + intros [= <-]. reflexivity.
    + intros H. apply IH in H. rewrite set_segid_twice in H. exact H.
Qed.

Lemma segid_loop_relabels (ranges : list (Z * Z)) (file : list string) :
  Forall (fun a => exists line, In line file /\
                     relabelled (pdb_line.init line) a)
         (fst (segid_loop ranges file)).
Proof.
  induction file as [|l rest IH]; simpl; [constructor|].
  assert (IH' : Forall (fun a => exists line, (l = line \/ In line rest) /\
                          relabelled (pdb_line.init line) a)
                  (fst (segid_loop ranges rest))).
  { eapply Forall_impl; [|exact IH]. intros a (line & Hin & Hr).
    exists line. split; [now right | exact Hr]. }
  destruct (check_line l).
  - destruct (segid_record ranges l) as [a|e] eqn:E; [|constructor].
    destruct (segid_loop ranges rest) as [out r]. constructor; [|exact IH'].
    exists l. split; [now left|]. exact (assign_relabels _ _ _ _ _ E).
  - destruct (l =? "")%string; [constructor | exact IH'].
Qed.

(** C10: every line [make_segid] writes is the serialisation of a parsed
    record in which only the record kind, set to ["ATOM  "], and the segment
    id were replaced, so chain id, residue number, insertion code,
    coordinates, occupancy, temperature factor, element symbol and charge
    are the parsed ones; the automatic engine writes every record with a
    blank chain id and a blank element symbol. *)
Theorem C10_range_engine_frame {FO : FloatOps}
    (ranges : list (Z * Z)) (file : list string) (fmt : format) :
  fst (make_segid ranges file fmt)
    = map (write fmt) (fst (segid_loop ranges file)) /\
  Forall (fun a => exists line, In line file /\
            let p := pdb_line.init line in
            pdb_line.ATOM a = "ATOM  " /\
            pdb_line.chain a = pdb_line.chain p /\
            pdb_line.resnum a = pdb_line.resnum p /\
            pdb_line.icode a = pdb_line.icode p /\
            pdb_line.x a = pdb_line.x p /\
            pdb_line.y a = pdb_line.y p /\
            pdb_line.z a = pdb_line.z p /\
            pdb_line.occ a = pdb_line.occ p /\
            pdb_line.tempfac a = pdb_line.tempfac p /\
            pdb_line.elename a = pdb_line.elename p /\
            pdb_line.charge a = pdb_line.charge p /\
            pdb_line.serial a = pdb_line.serial p /\
            pdb_line.name a = pdb_line.name p /\
            pdb_line.altloc a = pdb_line.altloc p /\
            pdb_line.resname a = pdb_line.resname p)
         (fst (segid_loop ranges file)) /\
  Forall (fun a => pdb_line.chain a = " " /\ pdb_line.elename a = "  ")
         (fst (emitted file)).
Proof.
  repeat apply conj.
  - unfold make_segid. now destruct (segid_loop ranges file).
  - eapply Forall_impl; [|apply segid_loop_relabels].
    intros a (line & Hin & Hr). exists line. split; [exact Hin|].
    unfold relabelled in Hr. rewrite Hr. repeat apply conj; reflexivity.
  - eapply Forall_impl; [|apply emitted_cleared].
    intros a (_ & Hc & He). now split.
Qed.

(** ** Runs on concrete files, with IEEE 754 doubles *)

Lemma after_ala_reached : engine_after [ala_N; ala_O] = Ok after_ala.
Proof. vm_compute. reflexivity. Qed.

Lemma after_ala_inv : inv after_ala.
Proof.
  constructor.
  - cbn. lia.
  - right; right. exists 1. split; [cbn; lia | reflexivity].
  - reflexivity.
Defined.

(** A nitrogen 3.01 from the oxygen starts segment E002; one 2.99 from it
    stays in E001. *)
Lemma C2_chain_break_witness :
  (exists st' a',
     step after_ala (pdb_line.init gly_N_far) = Ok (st', a') /\
     segid st' = 2 /\ pdb_line.segid a' = "E002" /\
     (pdb_line.resname (pdb_line.init gly_N_far) <> "ACY " ->
      pdb_line.segid a' <> "E001")) /\
  (exists st' a',
     step after_ala (pdb_line.init gly_N_near) = Ok (st', a') /\
     segid st' = 1 /\ pdb_line.segid a' = "E001").
Proof.
  split.
  - refine (proj1 (C2_chain_break (FO:=binary64) after_ala (pdb_line.init gly_N_far) _
                     after_ala_inv _ _ _) _ _).
    + reflexivity.
    + reflexivity.
    + vm_compute. reflexivity.
    + vm_compute. reflexivity.
    + intros H. exfalso. apply H. reflexivity.
  - refine (proj2 (C2_chain_break (FO:=binary64) after_ala (pdb_line.init gly_N_near) _
                     after_ala_inv _ _ _) _ _).
    + reflexivity.
    + reflexivity.
    + vm_compute. reflexivity.
    + vm_compute. reflexivity.
    + reflexivity.
Defined.

(** Two ACY records in a row, the second an atom named [" N  "] 8.0 away
    from the oxygen of the first: a new segment is opened, and both records
    are written with [" ACY"]. *)
Lemma C2_acy_same_label :
  exists st d st' a',
    engine_after [ala_N; acy_O] = Ok st /\
    is_water (pdb_line.resname (atom1 st)) = false /\
    is_water (pdb_line.resname (pdb_line.init acy_N)) = false /\
    pdb_line.name (pdb_line.init acy_N) = " N  " /\
    distance (last_O_coor st) (pdb_line.init acy_N) = Ok d /\
    fgt d three = true /\
    step st (pdb_line.init acy_N) = Ok (st', a') /\
    segid st' = segid st + 1 /\
    pdb_line.segid a' = pdb_line.segid (atom1 st).
Proof.
  do 4 eexists.
  split; [vm_compute; reflexivity|].
  split; [reflexivity|].
  split; [reflexivity|].
  split; [reflexivity|].
  split; [vm_compute; reflexivity|].
  split; [vm_compute; reflexivity|].
  split; [vm_compute; reflexivity|].
  split; reflexivity.
Qed.

Lemma after_res5_reached : engine_after [res5_A] = Ok after_res5.
Proof. vm_compute. reflexivity. Qed.

Lemma after_res5_inv : inv after_res5.
Proof.
  constructor.
  - cbn. lia.
  - right; right. exists 1. split; [cbn; lia | reflexivity].
  - reflexivity.
Defined.

Lemma C3_new_segment_witness :
  exists st' a' q,
    step after_res5 (pdb_line.init res7_B) = Ok (st', a') /\
    py_int (pdb_line.resnum (atom1 after_res5)) = Some (resnum after_res5) /\
    (if resnum after_res5 =? 1 then q = 1
     else py_int (pdb_line.resnum (pdb_line.init res7_B)) = Some q) /\
    resnum st' = q /\
    pdb_line.resnum a' = rjust (str q) 4 /\
    segid st' = segid after_res5 + 1 /\
    pdb_line.segid a' =
      (if (pdb_line.resname (pdb_line.init res7_B) =? "ACY ")%string
       then " ACY" else E_label (segid after_res5 + 1)).
Proof.
  eapply (C3_new_segment (FO:=binary64) after_res5 (pdb_line.init res7_B)).
  - exact after_res5_inv.
  - reflexivity.
  - vm_compute. reflexivity.
  - reflexivity.
  - intros _. exists 7. reflexivity.
Defined.

(** A new segment after a record written with residue number 5 does not
    restart the counter at 1 but at the current record's own number, 7; after
    a record written with residue number 1 the counter restarts at 1 and
    does not continue from the current record's number. *)
Lemma C3_restart_counterexample :
  map pdb_line.resnum (fst (emitted [res5_A; res7_B])) = ["   5"; "   7"] /\
  nth 1 (map pdb_line.resnum (fst (emitted [res5_A; res7_B]))) ""
    <> rjust (str 1) 4 /\
  map pdb_line.resnum (fst (emitted [res1_A; res7_B])) = ["   1"; "   1"] /\
  nth 1 (map pdb_line.resnum (fst (emitted [res1_A; res7_B]))) ""
    <> rjust (str 7) 4.
Proof.
  repeat apply conj; vm_compute; (reflexivity || discriminate).
Qed.

(** C1 on a file that starts with a water: the first record is written with
    ["E001"], the next water record with [" WAT"]. *)
Theorem C1_first_water_record :
  map (fun a => is_water (pdb_line.resname a))
      (fst (emitted [water_O; water_H])) = [true; true] /\
  map pdb_line.segid (fst (emitted [water_O; water_H])) = ["E001"; " WAT"] /\
  snd (emitted [water_O; water_H]) = Ok 1.
Proof. repeat apply conj; vm_compute; reflexivity. Qed.

(** C6 on a first record whose residue-number columns are blank: [int()]
    raises and nothing is written. *)
Theorem C6_blank_first_resnum :
  check_line no_resnum = true /\
  pdb_line.resnum (pdb_line.init no_resnum) = "    " /\
  make_compatible [no_resnum] charmm = ([], Raise ValueError) /\
  make_compatible [no_resnum] pdb = ([], Raise ValueError).
Proof. repeat apply conj; vm_compute; reflexivity. Qed.

Lemma C9_nitrogen_before_oxygen_witness :
  exists a1,
    emitted [ala_N; gly_N_near] = ([a1], Raise UnboundLocalError).
Proof.
  eexists.
  eapply (C9_nitrogen_before_oxygen ala_N gly_N_near [] []).
  - reflexivity.
  - vm_compute. reflexivity.
  - intros H. exact H.
  - intros l H. destruct H.
  - reflexivity.
  - reflexivity.
  - reflexivity.
  - reflexivity.
Defined.

(** ** The loops and the reader *)

Lemma check_line_nonempty (line : string) :
  check_line line = true -> (line =? "")%string = false.
Proof. destruct line; [discriminate | reflexivity]. Qed.

(** [loop] is the source's loop: read the next relevant line, stop when it
    is empty, otherwise process it and go on with what the reader left. *)
Lemma loop_read {FO : FloatOps} (file : list string) (st : engine_of F) :
  loop st file =
    let '(line2, rest) := read_relevant_line file in
    if (line2 =? "")%string then ([], Ok st)
    else match step st (pdb_line.init line2) with
         | Ok (st', atom2) =>
             let '(out, r) := loop st' rest in (atom2 :: out, r)
         | Raise e => ([], Raise e)
         end.
Proof.
  induction file as [|l rest IH]; [reflexivity|].
  cbn [loop read_relevant_line].
  destruct (check_line l) eqn:C; cbn [negb andb].
  - now rewrite (check_line_nonempty _ C).
  - destruct (String.eqb_spec l "") as [->|_]; cbn [negb];
      [reflexivity | exact IH].
Qed.

Lemma segid_loop_read (ranges : list (Z * Z)) (file : list string) :
  segid_loop ranges file =
    let '(line, rest) := read_relevant_line file in
    if (line =? "")%string then ([], Ok tt)
    else match segid_record ranges line with
         | Ok atom =>
             let '(out, r) := segid_loop ranges rest in (atom :: out, r)
         | Raise e => ([], Raise e)
         end.
Proof.
  induction file as [|l rest IH]; [reflexivity|].
  cbn [segid_loop read_relevant_line].
  destruct (check_line l) eqn:C; cbn [negb andb].
  - now rewrite (check_line_nonempty _ C).
  - destruct (String.eqb_spec l "") as [->|_]; cbn [negb];
      [reflexivity | exact IH].
Qed.

(** Every state the engine reaches satisfies the invariant. *)
Lemma engine_after_inv {FO : FloatOps} (file : list string)
    (st : engine_of F) :
  engine_after file = Ok st -> inv st.
Proof.
  unfold engine_after. destruct (read_relevant_line file) as [line1 rest].
  destruct (first_record line1) as [[st0 a1]|e] eqn:E; cbn [bind fst];
    [|discriminate].
  destruct (first_record_inv _ _ _ E) as (Hinv & _).
  destruct (loop st0 rest) as [out r] eqn:L. cbn [snd]. intros ->.
  exact (loop_inv _ _ _ _ Hinv L).
Qed.

(** All records but the first are written with [" WAT"] when their residue
    is a water; the first is always written with ["E001"]. *)
Lemma emitted_water_segid {FO : FloatOps} (file : list string) :
  match fst (emitted file) with
  | [] => True
  | a1 :: out =>
      pdb_line.segid a1 = "E001" /\
      Forall (fun a => is_water (pdb_line.resname a) = true ->
                       pdb_line.segid a = " WAT") out
  end.
Proof.
  unfold emitted. destruct (read_relevant_line file) as [line1 rest].
  destruct (first_record line1) as [[st a1]|e] eqn:E; [|exact I].
  pose proof (loop_water_segid rest st) as H.
  destruct (loop st rest) as [out r]. cbn [fst] in *.
  split; [|exact H].
  now destruct (first_record_inv _ _ _ E) as (_ & _ & _ & ->).
Qed.

(** A first record whose residue number does not read as an integer stops
    the engine before anything is written; so does a file with no relevant
    line at all. *)
Lemma first_record_not_numeric {FO : FloatOps} (line1 : string) :
  py_int (pdb_line.resnum (pdb_line.init line1)) = None ->
  first_record line1 = Raise ValueError.
Proof.
  intros H. unfold first_record, int_. rewrite H.
  destruct (init_well_sized line1) as (_ & _ & _ & _ & _ & _ & Hl & _).
  destruct (pdb_line.resnum (pdb_line.init line1)); [discriminate Hl|].
  reflexivity.
Qed.

(** * Further properties of the code *)

(** ** Written lines *)

(** All the columns of a written record that fills its columns. *)
Lemma written_all_columns (a : pdb_line.t) (fmt : format) :
  well_sized a ->
  let out := write fmt a in
  length out = 81%nat /\
  read_string out 81 0 = nl /\
  read_string out 1 6 = pdb_line.ATOM a /\
  read_string out 7 11 = pdb_line.serial a /\
  read_string out 13 16 = pdb_line.name a /\
  read_string out 17 0 = pdb_line.altloc a /\
  read_string out 18 21 = pdb_line.resname a /\
  read_string out 22 0 = pdb_line.chain a /\
  read_string out 31 38 = pdb_line.x a /\
  read_string out 39 46 = pdb_line.y a /\
  read_string out 47 54 = pdb_line.z a /\
  read_string out 55 60 = pdb_line.occ a /\
  read_string out 61 66 = pdb_line.tempfac a /\
  read_string out 73 76 = pdb_line.segid a /\
  read_string out 77 78 = pdb_line.elename a /\
  read_string out 79 80 = pdb_line.charge a.
Proof.
  destruct a as [f1 f2 f3 f4 f5 f6 f7 f8 f9 f10 f11 f12 f13 f14 f15 f16 f17 f18].
  unfold well_sized. cbn [pdb_line.ATOM pdb_line.serial pdb_line.name
    pdb_line.altloc pdb_line.resname pdb_line.chain pdb_line.resnum
    pdb_line.icode pdb_line.x pdb_line.y pdb_line.z pdb_line.occ
    pdb_line.tempfac pdb_line.segid pdb_line.elename pdb_line.charge].
  intros (H1 & H2 & H3 & H4 & H5 & H6 & H7 & H9 & H10 & H11 & H12 & H13
          & H14 & H15 & H16 & H17).
  explode f1 H1. explode f2 H2. explode f3 H3. explode f4 H4.
  explode f5 H5. explode f6 H6. explode f7 H7. explode f9 H9.
  explode f10 H10. explode f11 H11. explode f12 H12. explode f13 H13.
  explode f14 H14. explode f15 H15. explode f16 H16. explode f17 H17.
  destruct fmt; repeat apply conj; reflexivity.
Qed.

(** X1: a record whose fields fill their columns is written, in both
    layouts, as 80 characters and the terminator. *)
Theorem written_line_shape (a : pdb_line.t) (fmt : format) :
  well_sized a ->
  length (write fmt a) = 81%nat /\ read_string (write fmt a) 81 0 = nl.
Proof.
  intros H. destruct (written_all_columns a fmt H) as (H1 & H2 & _).
  split; assumption.
Qed.

Lemma written_line_shape_witness :
  length (write pdb (pdb_line.init short_atom)) = 81%nat /\
  read_string (write pdb (pdb_line.init short_atom)) 81 0 = nl.
Proof.
  apply (written_line_shape (pdb_line.init short_atom) pdb).
  repeat apply conj; reflexivity.
Defined.

Lemma substring_0_0 (s : string) : substring 0 0 s = EmptyString.
Proof. now destruct s. Qed.

Lemma atom_prefix (s : string) :
  read_string s 1 6 = "ATOM  " -> read_string s 1 4 = "ATOM".
Proof.
  unfold read_string, slice. cbn [Nat.eqb Nat.sub].
  change 6%nat with (4 + 2)%nat. rewrite substring_split.
  intros H.
  destruct s as [|c1 [|c2 [|c3 [|c4 s]]]]; cbn in H |- *;
    rewrite ?substring_0_0 in *; try discriminate H.
  injection H as -> -> -> -> _. reflexivity.
Qed.

Lemma written_well_formed (a : pdb_line.t) (fmt : format) :
  well_sized a ->
  pdb_line.ATOM a = "ATOM  " \/ pdb_line.ATOM a = "HETATM" ->
  well_formed (write fmt a) = true.
Proof.
  intros Hs Hk.
  destruct (written_all_columns a fmt Hs) as (Hl & _ & Ha & _).
  unfold well_formed, recognizable. rewrite Hl. cbn [Nat.eqb andb].
  destruct Hk as [Hk|Hk]; rewrite Hk in Ha.
  - rewrite (atom_prefix _ Ha). apply orb_true_r.
  - now rewrite Ha.
Qed.

(** What parsing a written record gives back. *)
Lemma parse_written_fields (a : pdb_line.t) (fmt : format) :
  well_sized a ->
  pdb_line.ATOM a = "ATOM  " \/ pdb_line.ATOM a = "HETATM" ->
  let b := pdb_line.init (write fmt a) in
  check_line (write fmt a) = true /\
  pdb_line.ATOM b = pdb_line.ATOM a /\
  pdb_line.serial b = pdb_line.serial a /\
  pdb_line.name b = pdb_line.name a /\
  pdb_line.altloc b = pdb_line.altloc a /\
  pdb_line.resname b = pdb_line.resname a /\
  pdb_line.chain b = pdb_line.chain a /\
  pdb_line.x b = pdb_line.x a /\
  pdb_line.y b = pdb_line.y a /\
  pdb_line.z b = pdb_line.z a /\
  pdb_line.occ b = pdb_line.occ a /\
  pdb_line.tempfac b = pdb_line.tempfac a /\
  pdb_line.segid b = pdb_line.segid a /\
  pdb_line.elename b = pdb_line.elename a /\
  pdb_line.charge b = pdb_line.charge a.
Proof.
  intros Hs Hk b.
  pose proof (written_all_columns a fmt Hs) as Hc. cbv zeta in Hc.
  pose proof (init_fields (write fmt a)) as Hf. cbv zeta in Hf.
  rewrite (normalize_well_formed _ (written_well_formed a fmt Hs Hk)) in Hf.
  destruct Hc as (_ & _ & C1 & C2 & C3 & C4 & C5 & C6 & C7 & C8 & C9 & C10
                  & C11 & C12 & C13 & C14).
  destruct Hf as (F1 & F2 & F3 & F4 & F5 & F6 & _ & _ & _ & F7 & F8 & F9
                  & F10 & F11 & F12 & F13 & F14).
  subst b. unfold check_line.
  rewrite F1, F2, F3, F4, F5, F6, F7, F8, F9, F10, F11, F12, F13, F14.
  rewrite C1, C2, C3, C4, C5, C6, C7, C8, C9, C10, C11, C12, C13, C14.
  repeat apply conj; try reflexivity.
  destruct Hk as [-> | ->]; reflexivity.
Qed.

(** X2: a written ATOM or HETATM record that fills its columns is a
    relevant line, and parsing it gives back every field but the residue
    number and the insertion code, whose columns the two layouts share
    differently. *)
Theorem parse_written (a : pdb_line.t) (fmt : format) :
  well_sized a ->
  pdb_line.ATOM a = "ATOM  " \/ pdb_line.ATOM a = "HETATM" ->
  let b := pdb_line.init (write fmt a) in
  check_line (write fmt a) = true /\
  pdb_line.ATOM b = pdb_line.ATOM a /\
  pdb_line.serial b = pdb_line.serial a /\
  pdb_line.name b = pdb_line.name a /\
  pdb_line.altloc b = pdb_line.altloc a /\
  pdb_line.resname b = pdb_line.resname a /\
  pdb_line.chain b = pdb_line.chain a /\
  pdb_line.x b = pdb_line.x a /\
  pdb_line.y b = pdb_line.y a /\
  pdb_line.z b = pdb_line.z a /\
  pdb_line.occ b = pdb_line.occ a /\
  pdb_line.tempfac b = pdb_line.tempfac a /\
  pdb_line.segid b = pdb_line.segid a /\
  pdb_line.elename b = pdb_line.elename a /\
  pdb_line.charge b = pdb_line.charge a.
Proof. apply parse_written_fields. Qed.

Lemma parse_written_witness :
  check_line (write charmm (written ala_O "   1" "E001")) = true /\
  pdb_line.segid (pdb_line.init (write charmm (written ala_O "   1" "E001")))
  = "E001".
Proof.
  destruct (parse_written (written ala_O "   1" "E001") charmm)
    as (H1 & _ & _ & _ & _ & _ & _ & _ & _ & _ & _ & _ & H2 & _).
  - repeat apply conj; reflexivity.
  - left. reflexivity.
  - split; [exact H1 | exact H2].
Defined.

(** X3: no parsed record has an alphabetic insertion code: a letter in
    column 27 is always replaced by a blank. *)
Theorem insertion_code_never_alphabetic (line : string) :
  isalpha (pdb_line.icode (pdb_line.init line)) = false.
Proof.
  pose proof (init_fields line) as Hf. cbv zeta in Hf.
  destruct Hf as (_ & _ & _ & _ & _ & _ & _ & _ & Hi & _).
  rewrite Hi.
  destruct (reconcile_cases
              (read_string (pdb_line.normalize line) 23 26)
              (fst (pdb_line.alpha_fix (pdb_line.normalize line)))
              (snd (pdb_line.alpha_fix (pdb_line.normalize line)))) as [E|E];
    rewrite E; cbn [snd]; [|reflexivity].
  unfold pdb_line.alpha_fix.
  destruct (isalpha (read_string (pdb_line.normalize line) 27 0)) eqn:A;
    cbn [snd]; [reflexivity | exact A].
Qed.

(** ** The lines read and the records written *)

(** [relevant_lines] is what repeated calls of the reader return. *)
Lemma relevant_lines_read (file : list string) :
  relevant_lines file =
    let '(line, rest) := read_relevant_line file in
    if check_line line then line :: relevant_lines rest else [].
Proof.
  induction file as [|l rest IH]; [reflexivity|].
  cbn [relevant_lines read_relevant_line].
  destruct (check_line l) eqn:C; cbn [negb andb].
  - now rewrite C.
  - destruct (String.eqb_spec l "") as [->|_]; cbn [negb];
      [reflexivity | exact IH].
Qed.

Lemma read_relevant_line_cases (file : list string) :
  check_line (fst (read_relevant_line file)) = true \/
  fst (read_relevant_line file) = "".
Proof.
  induction file as [|l rest IH]; [now right|].
  cbn [read_relevant_line].
  destruct (check_line l) eqn:C; cbn [negb andb]; [now left|].
  destruct (String.eqb_spec l "") as [->|_]; cbn [negb];
    [now right | exact IH].
Qed.

Lemma first_record_empty {FO : FloatOps} :
  first_record "" = Raise ValueError.
Proof. reflexivity. Qed.

Section RecordsWritten.

Context {FO : FloatOps}.

Lemma before_break_shape (st : engine_of F) (atom2 a : pdb_line.t)
    (lo : option (F * F * F)) :
  before_break st atom2 = Ok (lo, a) ->
  exists r s, a = pdb_line.set_segid s (pdb_line.set_resnum r atom2).
Proof.
  unfold before_break, inherit.
  cbn [pdb_line.segid pdb_line.set_resnum].
  set (x := pdb_line.set_resnum _ atom2).
  set (b := if (_ =? original_segid st)%string then _ else _).
  assert (Hb : exists s, b = pdb_line.set_segid s x).
  { subst b.
    destruct (pdb_line.segid atom2 =? "    ")%string;
      match goal with |- context [if ?c then _ else _] => destruct c end;
      eexists; reflexivity. }
  destruct Hb as [s Hb].
  destruct (track_O st b) as [lo'|e]; cbn [bind]; [|discriminate].
  unfold geometric_test.
  destruct (pdb_line.name b =? " N  ")%string.
  - destruct (distance lo' b) as [d|e]; cbn [bind]; [|discriminate].
    destruct (fgt d three); intros [= <- <-]; rewrite Hb;
      do 2 eexists; reflexivity.
  - cbn [bind]. intros [= <- <-]. rewrite Hb. do 2 eexists; reflexivity.
Qed.

Lemma nonwater_shape (st st1 : engine_of F) (atom2 a1 : pdb_line.t) :
  nonwater st atom2 = Ok (st1, a1) ->
  exists r s, a1 = pdb_line.set_segid s (pdb_line.set_resnum r atom2).
Proof.
  intros E. unfold nonwater in E.
  destruct (before_break st atom2) as [[lo a]|e] eqn:B; cbn [bind] in E;
    [|discriminate].
  destruct (before_break_shape _ _ _ _ B) as (r & s & ->).
  destruct (break_needed st _).
  - unfold open_segment in E.
    destruct (int_ (pdb_line.resnum (atom1 st))) as [p|e]; cbn [bind] in E;
      [|discriminate].
    destruct (if negb (p =? 1) then int_ (pdb_line.resnum atom2) else Ok 1);
      cbn [bind] in E; [|discriminate].
    cbn [pdb_line.resname pdb_line.set_segid pdb_line.set_resnum] in E.
    injection E as _ <-.
    destruct (pdb_line.resname atom2 =? "ACY ")%string;
      do 2 eexists; reflexivity.
  - injection E as _ <-. do 2 eexists; reflexivity.
Qed.

(** What an iteration writes is the parsed record with a residue number
    and a segment id of the engine, a blank chain id, a blank element symbol
    and the kind ATOM. *)
Lemma step_stamped (st st' : engine_of F) (atom2 a' : pdb_line.t) :
  step st atom2 = Ok (st', a') ->
  exists r s,
    a' = pdb_line.set_elename "  "
           (pdb_line.set_ATOM "ATOM  "
              (pdb_line.set_chain " "
                 (pdb_line.set_segid s (pdb_line.set_resnum r atom2)))).
Proof.
  intros E. destruct (is_water (pdb_line.resname atom2)) eqn:Hw.
  - rewrite (step_water _ _ Hw) in E. unfold water in E.
    destruct (if first_water st =? 0 then (0, 1)
              else (resnum st, first_water st)) as [r fw].
    cbn [pdb_line.name pdb_line.set_segid] in E.
    destruct (strip (pdb_line.name atom2)); cbn [bind] in E;
      [discriminate|].
    injection E as _ <-. do 2 eexists; reflexivity.
  - rewrite (step_nonwater _ _ Hw) in E.
    destruct (nonwater st atom2) as [[st1 a1]|e] eqn:W;
      cbn [bind fst snd] in E; [|discriminate].
    destruct (nonwater_shape _ _ _ _ W) as (r & s & ->).
    injection E as _ <-. do 2 eexists; reflexivity.
Qed.

Lemma step_written (st st' : engine_of F) (line : string) (a' : pdb_line.t) :
  step st (pdb_line.init line) = Ok (st', a') ->
  exists r s, a' = written line r s.
Proof. unfold written. apply step_stamped. Qed.

Lemma first_record_written (line1 : string) (st : engine_of F)
    (a1 : pdb_line.t) :
  first_record line1 = Ok (st, a1) ->
  exists r, a1 = written line1 r "E001".
Proof.
  unfold first_record, written.
  generalize (pdb_line.init line1) as p. intros p.
  destruct (if negb (pdb_line.resnum p =? "")%string
            then v <- int_ (pdb_line.resnum p) ;;
                 (if negb (v =? 1) then int_ (pdb_line.resnum p) else Ok 1)
            else Ok 1) as [r|e]; cbn [bind]; [|discriminate].
  intros [= _ <-]. eexists; reflexivity.
Qed.

Lemma loop_written (file : list string) :
  forall st,
  Forall2 (fun a line => exists r s, a = written line r s)
    (fst (loop st file))
    (firstn (Datatypes.length (fst (loop st file))) (relevant_lines file)).
Proof.
  induction file as [|l rest IH]; intros st; cbn [loop relevant_lines];
    [constructor|].
  destruct (check_line l).
  - destruct (step st (pdb_line.init l)) as [[st' a']|e] eqn:E;
      [|constructor].
    specialize (IH st'). destruct (loop st' rest) as [out r].
    cbn [fst Datatypes.length firstn] in *.
    constructor; [exact (step_written _ _ _ _ E) | exact IH].
  - destruct (l =? "")%string; [constructor | apply IH].
Qed.

Lemma loop_complete (file : list string) :
  forall st out st',
  loop st file = (out, Ok st') ->
  Datatypes.length out = Datatypes.length (relevant_lines file).
Proof.
  induction file as [|l rest IH]; intros st out st';
    cbn [loop relevant_lines].
  - now intros [= <- _].
  - destruct (check_line l).
    + destruct (step st (pdb_line.init l)) as [[st1 a1]|e]; [|discriminate].
      destruct (loop st1 rest) as [out1 r1] eqn:L.
      intros [= <- ->]. cbn [Datatypes.length]. f_equal.
      exact (IH _ _ _ L).
    + destruct (l =? "")%string; [now intros [= <- _] | apply IH].
Qed.

(** X4: the records [make_compatible] writes are, in order, the relevant
    lines of the input, each parsed and then changed in its residue number,
    segment id, chain id, element symbol and kind only; an exception cuts
    the list short but never reorders or skips. *)
Theorem emitted_in_order (file : list string) :
  Forall2 (fun a line => exists r s, a = written line r s)
    (fst (emitted file))
    (firstn (Datatypes.length (fst (emitted file))) (relevant_lines file)).
Proof.
  unfold emitted. rewrite relevant_lines_read.
  pose proof (read_relevant_line_cases file) as Hc.
  destruct (read_relevant_line file) as [line1 rest]. cbn [fst] in Hc.
  destruct (first_record line1) as [[st a1]|e] eqn:E; [|constructor].
  destruct Hc as [Hc | ->]; [|rewrite first_record_empty in E; discriminate].
  rewrite Hc. pose proof (loop_written rest st) as H.
  destruct (loop st rest) as [out r].
  cbn [fst Datatypes.length firstn] in *.
  constructor; [|exact H].
  destruct (first_record_written _ _ _ E) as [r1 ->]. do 2 eexists; reflexivity.
Qed.

(** The engine that returns wrote one record for each relevant line. *)
Lemma emitted_length (file : list string) :
  snd (emitted file) = Ok 1 ->
  Datatypes.length (fst (emitted file))
  = Datatypes.length (relevant_lines file).
Proof.
  unfold emitted. rewrite relevant_lines_read.
  pose proof (read_relevant_line_cases file) as Hc.
  destruct (read_relevant_line file) as [line1 rest]. cbn [fst] in Hc.
  destruct (first_record line1) as [[st a1]|e] eqn:E; [|discriminate].
  destruct Hc as [Hc | ->]; [|rewrite first_record_empty in E; discriminate].
  rewrite Hc. destruct (loop st rest) as [out [st'|e]] eqn:L;
    cbn [fst snd bind]; [|discriminate].
  intros _. cbn [Datatypes.length]. f_equal. exact (loop_complete _ _ _ _ L).
Qed.

(** X5: when [make_compatible] returns, it has written one record for each
    relevant line of the input. *)
Theorem emitted_complete (file : list string) :
  snd (emitted file) = Ok 1 ->
  Datatypes.length (fst (emitted file))
  = Datatypes.length (relevant_lines file).
Proof. apply emitted_length. Qed.

Lemma loop_generated (file : list string) :
  forall st, inv st ->
  Forall (fun a => exists n, generated n (pdb_line.segid a))
         (fst (loop st file)).
Proof.
  induction file as [|l rest IH]; intros st Hinv; cbn [loop]; [constructor|].
  destruct (check_line l).
  - destruct (step st (pdb_line.init l)) as [[st' a']|e] eqn:E;
      [|constructor].
    destruct (step_inv _ _ _ _ Hinv E) as [Hinv' Ha].
    specialize (IH st' Hinv'). destruct (loop st' rest) as [out r].
    constructor; [|exact IH].
    exists (segid st'). rewrite <- Ha. apply (inv_label st' Hinv').
  - destruct (l =? "")%string; [constructor | now apply IH].
Qed.

(** X6: every segment id [make_compatible] writes has a form the engine
    makes: [" WAT"], [" ACY"] or ["E"] and a positive counter, whatever the
    segment ids of the input are. *)
Theorem emitted_labels_generated (file : list string) :
  Forall (fun a =>
            pdb_line.segid a = " WAT" \/ pdb_line.segid a = " ACY" \/
            exists k, 1 <= k /\ pdb_line.segid a = E_label k)
         (fst (emitted file)).
Proof.
  assert (H : Forall (fun a => exists n, generated n (pdb_line.segid a))
                (fst (emitted file))).
  { unfold emitted. destruct (read_relevant_line file) as [line1 rest].
    destruct (first_record line1) as [[st a1]|e] eqn:E; [|constructor].
    destruct (first_record_inv _ _ _ E) as (Hinv & Ha & _).
    pose proof (loop_generated rest st Hinv) as H.
    destruct (loop st rest) as [out r]. constructor; [|exact H].
    exists (segid st). rewrite <- Ha. apply (inv_label st Hinv). }
  eapply Forall_impl; [|exact H].
  intros a [n [Hw|[Hy|(k & Hk & He)]]]; [now left | now right; left |].
  right; right. exists k. split; [lia | exact He].
Qed.

End RecordsWritten.

Lemma emitted_complete_witness :
  Datatypes.length (fst (emitted [ala_N; "REMARK" ++ nl; ala_O; gly_N_far]))
  = Datatypes.length (relevant_lines [ala_N; "REMARK" ++ nl; ala_O; gly_N_far]).
Proof.
  apply (emitted_complete (FO:=binary64)). vm_compute. reflexivity.
Defined.

(** ** The range engine on whole files *)

Lemma segid_loop_in_order (ranges : list (Z * Z)) (file : list string) :
  Forall2 (fun a line => relabelled (pdb_line.init line) a)
    (fst (segid_loop ranges file))
    (firstn (Datatypes.length (fst (segid_loop ranges file)))
       (relevant_lines file)).
Proof.
  induction file as [|l rest IH]; cbn [segid_loop relevant_lines];
    [constructor|].
  destruct (check_line l).
  - destruct (segid_record ranges l) as [a|e] eqn:E; [|constructor].
    destruct (segid_loop ranges rest) as [out r].
    cbn [fst Datatypes.length firstn] in *.
    constructor; [|exact IH]. exact (assign_relabels _ _ _ _ _ E).
  - destruct (l =? "")%string; [constructor | exact IH].
Qed.

Lemma segid_loop_length (ranges : list (Z * Z)) (file : list string) :
  snd (segid_loop ranges file) = Ok tt ->
  Datatypes.length (fst (segid_loop ranges file))
  = Datatypes.length (relevant_lines file).
Proof.
  induction file as [|l rest IH]; cbn [segid_loop relevant_lines];
    [reflexivity|].
  destruct (check_line l).
  - destruct (segid_record ranges l) as [a|e]; [|discriminate].
    destruct (segid_loop ranges rest) as [out r]. cbn [fst snd] in *.
    intros H. cbn [Datatypes.length]. f_equal. exact (IH H).
  - destruct (l =? "")%string; [reflexivity | exact IH].
Qed.

(** X7: when [make_segid] returns, the records it wrote are, one for one
    and in order, the relevant lines of the input, parsed and changed in
    kind and segment id only. *)
Theorem make_segid_in_order (ranges : list (Z * Z)) (file : list string)
    (fmt : format) :
  snd (make_segid ranges file fmt) = Ok 1 ->
  fst (make_segid ranges file fmt)
    = map (write fmt) (fst (segid_loop ranges file)) /\
  Forall2 (fun a line => relabelled (pdb_line.init line) a)
    (fst (segid_loop ranges file)) (relevant_lines file).
Proof.
  unfold make_segid. intros H.
  pose proof (segid_loop_in_order ranges file) as Ho.
  pose proof (segid_loop_length ranges file) as Hl.
  destruct (segid_loop ranges file) as [out [[]|e]]; cbn [fst snd bind] in *;
    [|discriminate].
  split; [reflexivity|].
  rewrite (Hl eq_refl), firstn_all in Ho. exact Ho.
Qed.

Lemma make_segid_in_order_witness :
  fst (make_segid [(1, 1); (2, 5)] [ala_N; "REMARK" ++ nl; gly_N_far] pdb)
    = map (write pdb)
        (fst (segid_loop [(1, 1); (2, 5)] [ala_N; "REMARK" ++ nl; gly_N_far]))
  /\
  Forall2 (fun a line => relabelled (pdb_line.init line) a)
    (fst (segid_loop [(1, 1); (2, 5)] [ala_N; "REMARK" ++ nl; gly_N_far]))
    (relevant_lines [ala_N; "REMARK" ++ nl; gly_N_far]).
Proof.
  apply (make_segid_in_order [(1, 1); (2, 5)]
           [ala_N; "REMARK" ++ nl; gly_N_far] pdb).
  vm_compute. reflexivity.
Defined.

(** X8: with an empty range file [make_segid] never fails: every relevant
    line is written with the kind ATOM and the segment id it was read with. *)
Theorem make_segid_empty_table (file : list string) (fmt : format) :
  make_segid [] file fmt
  = (map (fun line =>
            write fmt (pdb_line.set_ATOM "ATOM  " (pdb_line.init line)))
       (relevant_lines file),
     Ok 1).
Proof.
  unfold make_segid.
  assert (H : segid_loop [] file
              = (map (fun line => pdb_line.set_ATOM "ATOM  "
                                    (pdb_line.init line))
                   (relevant_lines file), Ok tt)).
  { induction file as [|l rest IH]; cbn [segid_loop relevant_lines];
      [reflexivity|].
    destruct (check_line l).
    - unfold segid_record. cbn [assign]. now rewrite IH.
    - destruct (l =? "")%string; [reflexivity | exact IH]. }
  rewrite H. cbn [bind]. now rewrite map_map.
Qed.

Lemma segid_loop_app (ranges : list (Z * Z)) (pre rest : list string)
    (out : list pdb_line.t) :
  ~ In "" pre -> segid_loop ranges pre = (out, Ok tt) ->
  segid_loop ranges (pre ++ rest)%list
  = ((out ++ fst (segid_loop ranges rest))%list,
     snd (segid_loop ranges rest)).
Proof.
  revert out. induction pre as [|l pre IH]; intros out Hne; simpl.
  - intros [= <-]. now destruct (segid_loop ranges rest).
  - assert (Hl : l <> "") by (intros ->; apply Hne; now left).
    assert (Hne' : ~ In "" pre) by (intros H; apply Hne; now right).
    destruct (check_line l).
    + destruct (segid_record ranges l) as [a|e]; [|discriminate].
      destruct (segid_loop ranges pre) as [out1 r1] eqn:L.
      intros [= <- ->]. rewrite (IH _ Hne' eq_refl). reflexivity.
    + apply String.eqb_neq in Hl. rewrite Hl. now apply IH.
Qed.

(** X9: with a range table that is not empty, a relevant line whose residue
    number [int()] rejects ends [make_segid] with a [ValueError], after the
    records of the lines before it and before anything of this line is
    written. *)
Theorem make_segid_not_numeric (ranges : list (Z * Z))
    (pre post : list string) (line : string) (out : list pdb_line.t)
    (fmt : format) :
  ranges <> [] ->
  ~ In "" pre ->
  segid_loop ranges pre = (out, Ok tt) ->
  check_line line = true ->
  py_int (pdb_line.resnum (pdb_line.init line)) = None ->
  make_segid ranges (pre ++ line :: post)%list fmt
  = (map (write fmt) out, Raise ValueError).
Proof.
  intros Hr Hne Hp Hc Hn. unfold make_segid.
  rewrite (segid_loop_app ranges pre (line :: post) out Hne Hp).
  cbn [segid_loop]. rewrite Hc. unfold segid_record.
  destruct ranges as [|[b e] rest]; [congruence|].
  cbn [assign pdb_line.resnum pdb_line.set_ATOM]. unfold int_.
  rewrite Hn. cbn [bind fst snd]. now rewrite app_nil_r.
Qed.

Lemma make_segid_not_numeric_witness :
  make_segid [(1, 13)] [ala_N; no_resnum; ala_O] charmm
  = (map (write charmm) (fst (segid_loop [(1, 13)] [ala_N])),
     Raise ValueError).
Proof.
  apply (make_segid_not_numeric [(1, 13)] [ala_N] [ala_O] no_resnum).
  - discriminate.
  - intros [H|[]]. discriminate H.
  - vm_compute. reflexivity.
  - reflexivity.
  - reflexivity.
Defined.

(** ** Input without a relevant line *)

Lemma index_loop_no_relevant (file : list string) :
  forall s i c, relevant_lines file = [] -> index_loop s i c file = [].
Proof.
  induction file as [|l rest IH]; intros s i c; cbn [relevant_lines index_loop];
    [reflexivity|].
  destruct (check_line l); [discriminate|].
  destruct (l =? "")%string; [reflexivity | apply IH].
Qed.

(** X10: on an input without any ATOM or HETATM line, also an empty one,
    [make_compatible] raises a [ValueError] at the first record's residue
    number and writes nothing, while [make_segid] and [make_index] return
    having written nothing. *)
Theorem no_relevant_line {FO : FloatOps} (file : list string)
    (ranges : list (Z * Z)) (fmt : format) :
  relevant_lines file = [] ->
  make_compatible file fmt = ([], Raise ValueError) /\
  make_segid ranges file fmt = ([], Ok 1) /\
  make_index file = ([], 1).
Proof.
  intros H. repeat apply conj.
  - unfold make_compatible, emitted.
    rewrite relevant_lines_read in H.
    pose proof (read_relevant_line_cases file) as Hc.
    destruct (read_relevant_line file) as [line1 rest]. cbn [fst] in Hc.
    destruct Hc as [Hc | ->]; [rewrite Hc in H; discriminate|].
    now rewrite first_record_empty.
  - pose proof (segid_loop_in_order ranges file) as Hp.
    unfold make_segid in *. rewrite H in Hp.
    destruct (segid_loop ranges file) as [out r] eqn:L. cbn [fst snd] in *.
    rewrite firstn_nil in Hp. inversion Hp; subst. cbn [map].
    f_equal.
    clear Hp. revert L. induction file as [|l rest IH];
      cbn [segid_loop relevant_lines] in *.
    + now intros [= <-].
    + destruct (check_line l); [discriminate|].
      destruct (l =? "")%string; [now intros [= <-] | now apply IH].
  - unfold make_index. now rewrite index_loop_no_relevant.
Qed.

Lemma no_relevant_line_witness :
  make_compatible ["HEADER" ++ nl; short_hetatm; "END" ++ nl] pdb
    = ([], Raise ValueError) /\
  make_segid [(1, 13)] ["HEADER" ++ nl; short_hetatm; "END" ++ nl] pdb
    = ([], Ok 1) /\
  make_index ["HEADER" ++ nl; short_hetatm; "END" ++ nl] = ([], 1).
Proof.
  apply (no_relevant_line (FO:=binary64)). reflexivity.
Defined.

(** ** Water records *)

Section Water.

Context {FO : FloatOps}.

(** An exception at the line after a prefix that was read without one ends
    the loop there. *)
Lemma loop_raise (pre post : list string) (line : string)
    (st0 st : engine_of F) (out : list pdb_line.t) (e : pyerr) :
  ~ In "" pre -> loop st0 pre = (out, Ok st) ->
  check_line line = true ->
  step st (pdb_line.init line) = Raise e ->
  loop st0 (pre ++ line :: post)%list = (out, Raise e).
Proof.
  intros Hne Hl Hc He.
  rewrite (loop_app pre (line :: post) _ _ _ Hne Hl).
  cbn [loop]. rewrite Hc, He. cbn [fst snd]. now rewrite app_nil_r.
Qed.

(** X11: a water record whose atom name is blank ends [make_compatible]
    with an [IndexError], after the records of the lines before it. *)
Theorem water_blank_name
    (line1 lineW : string) (pre post : list string)
    (st0 st : engine_of F) (a1 : pdb_line.t) (out : list pdb_line.t) :
  check_line line1 = true ->
  first_record line1 = Ok (st0, a1) ->
  ~ In "" pre ->
  loop st0 pre = (out, Ok st) ->
  check_line lineW = true ->
  is_water (pdb_line.resname (pdb_line.init lineW)) = true ->
  strip (pdb_line.name (pdb_line.init lineW)) = "" ->
  emitted (line1 :: pre ++ lineW :: post)%list
  = (a1 :: out, Raise IndexError).
Proof.
  intros Hc1 Hf Hne Hl Hc Hw Hn.
  unfold emitted. cbn [read_relevant_line]. rewrite Hc1. cbn [negb andb].
  rewrite Hf.
  rewrite (loop_raise pre post lineW st0 st out IndexError Hne Hl Hc);
    [reflexivity|].
  rewrite (step_water _ _ Hw). unfold water.
  destruct (if first_water st =? 0 then (0, 1)
            else (resnum st, first_water st)) as [r fw].
  cbn [pdb_line.name pdb_line.set_segid]. now rewrite Hn.
Qed.

(** One iteration on a water record whose name is not blank. *)
Lemma step_water_counts (st : engine_of F) (atom2 : pdb_line.t) :
  is_water (pdb_line.resname atom2) = true ->
  strip (pdb_line.name atom2) <> "" ->
  let base := if first_water st =? 0 then 0 else resnum st in
  let n := if water_oxygen atom2 then base + 1 else base in
  exists st' a',
    step st atom2 = Ok (st', a') /\
    resnum st' = n /\ first_water st' <> 0 /\ segid st' = segid st /\
    pdb_line.resnum a' = rjust (str n) 4 /\ pdb_line.segid a' = " WAT".
Proof.
  intros Hw Hn base n. subst base n.
  rewrite (step_water _ _ Hw). unfold water, water_oxygen.
  cbn [pdb_line.name pdb_line.set_segid].
  destruct (strip (pdb_line.name atom2)) as [|c r]; [congruence|].
  destruct (Z.eqb_spec (first_water st) 0) as [E|E]; cbn [bind fst snd];
    do 2 eexists; (split; [reflexivity|]);
    cbn [finish fst snd resnum first_water segid pdb_line.resnum
         pdb_line.segid pdb_line.set_resnum pdb_line.set_segid
         pdb_line.set_chain pdb_line.set_ATOM pdb_line.set_elename];
    repeat apply conj; try reflexivity; try assumption; discriminate.
Qed.

(** X12: over a run of water records with names that are not blank, the
    engine never fails, opens no segment, writes every record with
    [" WAT"], and numbers it with the count of the water oxygens read so
    far, counted from 0 at the first water of the file and from the running
    residue counter afterwards. *)
Theorem water_run_numbering (ws : list string) :
  forall st : engine_of F,
  (forall l, In l ws ->
     check_line l = true /\
     is_water (pdb_line.resname (pdb_line.init l)) = true /\
     strip (pdb_line.name (pdb_line.init l)) <> "") ->
  exists out st',
    loop st ws = (out, Ok st') /\
    map pdb_line.resnum out
      = map (fun n => rjust (str n) 4)
          (water_counts (if first_water st =? 0 then 0 else resnum st)
             (map pdb_line.init ws)) /\
    Forall (fun a => pdb_line.segid a = " WAT") out /\
    segid st' = segid st.
Proof.
  induction ws as [|l ws IH]; intros st H.
  - exists [], st. repeat apply conj; try reflexivity. constructor.
  - destruct (H l (or_introl eq_refl)) as (Hc & Hw & Hn).
    destruct (step_water_counts st _ Hw Hn)
      as (st1 & a1 & Hs & Hr & Hfw & Hseg & Hnum & Hlab).
    cbv zeta in Hr, Hnum.
    destruct (IH st1 (fun l' Hl' => H l' (or_intror Hl')))
      as (out & st' & Hl & Hmap & Hall & Hseg').
    exists (a1 :: out), st'. cbn [loop]. rewrite Hc, Hs, Hl.
    repeat apply conj.
    + reflexivity.
    + cbn [map water_counts]. rewrite Hnum. f_equal.
      rewrite Hmap. apply Z.eqb_neq in Hfw. rewrite Hfw, Hr. reflexivity.
    + constructor; assumption.
    + congruence.
Qed.

End Water.

Lemma water_blank_name_witness :
  exists a1,
    emitted [water_O; water_unnamed; water_H] = ([a1], Raise IndexError).
Proof.
  eexists.
  eapply (water_blank_name (FO:=binary64) water_O water_unnamed [] [water_H]).
  - reflexivity.
  - vm_compute. reflexivity.
  - intros H. exact H.
  - reflexivity.
  - reflexivity.
  - reflexivity.
  - reflexivity.
Defined.

Lemma water_run_numbering_witness :
  exists out st',
    loop after_ala [water_H; water_O; water_H2; water_O2] = (out, Ok st') /\
    map pdb_line.resnum out
      = map (fun n => rjust (str n) 4)
          (water_counts (if first_water after_ala =? 0 then 0
                         else resnum after_ala)
             (map pdb_line.init [water_H; water_O; water_H2; water_O2])) /\
    Forall (fun a => pdb_line.segid a = " WAT") out /\
    segid st' = segid after_ala.
Proof.
  apply (water_run_numbering (FO:=binary64)
           [water_H; water_O; water_H2; water_O2] after_ala).
  intros l [<-|[<-|[<-|[<-|[]]]]]; repeat apply conj;
    try reflexivity; vm_compute; discriminate.
Defined.

(** ** The range file *)

Lemma split_dash_no_dash (s : string) :
  all_chars not_dash s = true -> split_dash s = [s].
Proof.
  induction s as [|c s IH]; cbn [all_chars split_dash]; [reflexivity|].
  intros H. apply andb_prop in H as [Hc Hs]. unfold not_dash in Hc.
  apply negb_true_iff in Hc. now rewrite Hc, (IH Hs).
Qed.

Lemma split_dash_app (a b : string) :
  all_chars not_dash a = true ->
  split_dash (a ++ String "-" b) = a :: split_dash b.
Proof.
  induction a as [|c a IH]; cbn [all_chars split_dash append];
    [reflexivity|].
  intros H. apply andb_prop in H as [Hc Ha]. unfold not_dash in Hc.
  apply negb_true_iff in Hc. now rewrite Hc, (IH Ha).
Qed.

Lemma split_dash_parts (s : string) :
  Forall (fun part => all_chars not_dash part = true) (split_dash s).
Proof.
  induction s as [|c s IH]; cbn [split_dash].
  - repeat constructor.
  - destruct (Ascii.eqb c "-") eqn:E.
    + constructor; [reflexivity | exact IH].
    + destruct (split_dash s) as [|h t].
      * repeat constructor. cbn. unfold not_dash. now rewrite E.
      * inversion IH; subst. constructor; [|assumption].
        cbn. unfold not_dash at 1. now rewrite E.
Qed.

Lemma lstrip_keeps (p : ascii -> bool) (s : string) :
  all_chars p s = true -> all_chars p (lstrip s) = true.
Proof.
  induction s as [|c s IH]; cbn [lstrip all_chars]; [reflexivity|].
  intros H. destruct (is_space c); [|exact H].
  apply andb_prop in H as [_ H]. now apply IH.
Qed.

Lemma rstrip_keeps (p : ascii -> bool) (s : string) :
  all_chars p s = true -> all_chars p (rstrip s) = true.
Proof.
  induction s as [|c s IH]; cbn [rstrip all_chars]; [reflexivity|].
  intros H. apply andb_prop in H as [Hc Hs]. specialize (IH Hs).
  destruct (rstrip s) as [|c' r'].
  - destruct (is_space c); cbn; [reflexivity | now rewrite Hc].
  - cbn [all_chars] in *. now rewrite Hc.
Qed.

(** Text without a minus sign never reads as a negative integer. *)
Lemma py_int_no_dash (s : string) (v : Z) :
  all_chars not_dash s = true -> py_int s = Some v -> 0 <= v.
Proof.
  intros Hd. unfold py_int, strip.
  pose proof (rstrip_keeps _ _ (lstrip_keeps _ _ Hd)) as Hk.
  destruct (rstrip (lstrip s)) as [|c r]; [discriminate|].
  cbn [all_chars] in Hk. apply andb_prop in Hk as [Hc _].
  unfold not_dash in Hc. apply negb_true_iff in Hc. rewrite Hc.
  assert (Hnn : forall t w, digits_value t = Some w -> 0 <= w).
  { intros t w. unfold digits_value.
    destruct (NilZero.uint_of_string t) as [d|]; [|discriminate].
    intros [= <-]. unfold Z.of_uint. apply N2Z.is_nonneg. }
  destruct (Ascii.eqb c "+"); apply Hnn.
Qed.

Lemma rstrip_spaces_only (r : string) :
  all_chars is_space r = true -> rstrip r = "".
Proof.
  induction r as [|c r IH]; cbn [rstrip all_chars]; [reflexivity|].
  intros H. apply andb_prop in H as [Hc Hr]. now rewrite (IH Hr), Hc.
Qed.

Lemma rstrip_app_spaces (s r : string) :
  all_chars is_space r = true -> rstrip (s ++ r) = rstrip s.
Proof.
  intros Hr. induction s as [|c s IH]; cbn [rstrip append].
  - now apply rstrip_spaces_only.
  - now rewrite IH.
Qed.

Lemma lstrip_app_spaces (l s : string) :
  all_chars is_space l = true -> lstrip (l ++ s) = lstrip s.
Proof.
  induction l as [|c l IH]; cbn [lstrip append all_chars]; [reflexivity|].
  intros H. apply andb_prop in H as [Hc Hl]. now rewrite Hc, IH.
Qed.

(** Blanks around digits do not change what [int()] reads. *)
Lemma py_int_blanks_around (l s r : string) :
  all_chars is_space l = true -> all_chars is_space r = true ->
  all_chars is_digit s = true ->
  py_int (l ++ s ++ r) = py_int s.
Proof.
  intros Hl Hr Hs. unfold py_int, strip.
  rewrite (lstrip_app_spaces _ _ Hl).
  destruct s as [|c s].
  - cbn [append]. rewrite (lstrip_no_space "" eq_refl).
    assert (E : lstrip r = "").
    { clear Hl. induction r as [|x r IH]; [reflexivity|].
      cbn [all_chars lstrip] in *. apply andb_prop in Hr as [Hx Hr].
      rewrite Hx. now apply IH. }
    now rewrite E.
  - rewrite (lstrip_no_space _ (digits_no_space _ Hs)).
    pose proof Hs as Hs'. cbn [all_chars] in Hs'.
    apply andb_prop in Hs' as [Hc _].
    cbn [append lstrip]. rewrite (digit_not_space _ Hc).
    change (String c (s ++ r)) with (String c s ++ r).
    now rewrite (rstrip_app_spaces _ _ Hr).
Qed.

Lemma str_nonneg_digits (n : Z) :
  0 <= n -> all_chars is_digit (str n) = true.
Proof.
  destruct n as [|p|p]; intros H; [reflexivity | | lia].
  rewrite str_pos. apply string_of_uint_digits.
Qed.

Lemma digit_not_dash (c : ascii) : is_digit c = true -> not_dash c = true.
Proof.
  intros H. unfold not_dash. now destruct (digit_not_sign _ H) as [-> _].
Qed.

Lemma read_range_line (r : Z * Z) :
  0 <= fst r -> 0 <= snd r -> read_range (range_line r) = Some r.
Proof.
  destruct r as [a b]. cbn [fst snd]. intros Ha Hb.
  pose proof (str_nonneg_digits a Ha) as Da.
  pose proof (str_nonneg_digits b Hb) as Db.
  unfold read_range, range_line. cbn [fst snd].
  change (str a ++ " - " ++ str b ++ nl)
    with (str a ++ String " " (String "-" (" " ++ str b ++ nl))).
  replace (str a ++ String " " (String "-" (" " ++ str b ++ nl)))
    with ((str a ++ " ") ++ String "-" (" " ++ str b ++ nl))
    by now rewrite append_assoc.
  rewrite split_dash_app.
  2:{ rewrite all_chars_app.
      rewrite (all_chars_weaken _ _ _ digit_not_dash Da). reflexivity. }
  rewrite split_dash_no_dash.
  2:{ change (all_chars not_dash (String " " (str b ++ nl)) = true).
      cbn [all_chars]. rewrite all_chars_app.
      rewrite (all_chars_weaken _ _ _ digit_not_dash Db). reflexivity. }
  pose proof (py_int_blanks_around "" (str a) " " eq_refl eq_refl Da) as P1.
  pose proof (py_int_blanks_around " " (str b) nl eq_refl eq_refl Db) as P2.
  cbn [append] in P1, P2 |- *.
  now rewrite P1, P2, !py_int_str.
Qed.

(** X13: a range file written as the usage text shows, one line
    ["<begin> - <end>"] per range with bounds that are not negative, is read
    back as these ranges, in order. *)
Theorem read_ranges_written (ranges : list (Z * Z)) :
  Forall (fun r => 0 <= fst r /\ 0 <= snd r) ranges ->
  read_ranges (map range_line ranges) = Some ranges.
Proof.
  induction 1 as [|r rs [Ha Hb] _ IH]; [reflexivity|].
  cbn [map read_ranges]. now rewrite (read_range_line r Ha Hb), IH.
Qed.

Lemma read_ranges_written_witness :
  read_ranges (map range_line [(1, 13); (14, 30); (31, 270)])
  = Some [(1, 13); (14, 30); (31, 270)].
Proof.
  apply read_ranges_written.
  repeat constructor; cbn; lia.
Defined.

Lemma read_range_nonneg (line : string) (r : Z * Z) :
  read_range line = Some r -> 0 <= fst r /\ 0 <= snd r.
Proof.
  unfold read_range. pose proof (split_dash_parts line) as Hp.
  destruct (split_dash line) as [|a [|b [|c t]]]; try discriminate.
  inversion Hp as [|? ? Ha Hp']; subst.
  inversion Hp' as [|? ? Hb _]; subst.
  destruct (py_int a) as [x|] eqn:Ea; [|discriminate].
  destruct (py_int b) as [y|] eqn:Eb; [|discriminate].
  intros [= <-]. cbn [fst snd]. split.
  - exact (py_int_no_dash _ _ Ha Ea).
  - exact (py_int_no_dash _ _ Hb Eb).
Qed.

(** X14: when the range file is accepted, every one of its lines gave one
    range, and no bound is negative: a minus sign in front of a number makes
    the line split in three and ends the program. *)
Theorem read_ranges_accepted (resid_filep : list string)
    (ranges : list (Z * Z)) :
  read_ranges resid_filep = Some ranges ->
  Datatypes.length ranges = Datatypes.length resid_filep /\
  Forall (fun r => 0 <= fst r /\ 0 <= snd r) ranges.
Proof.
  revert ranges. induction resid_filep as [|l rest IH]; intros ranges;
    cbn [read_ranges].
  - intros [= <-]. split; [reflexivity | constructor].
  - destruct (read_range l) as [r|] eqn:E; [|discriminate].
    destruct (read_ranges rest) as [rs|]; [|discriminate].
    intros [= <-]. destruct (IH rs eq_refl) as [Hl Hf].
    split; [cbn; now rewrite Hl|].
    constructor; [exact (read_range_nonneg _ _ E) | exact Hf].
Qed.

Lemma read_ranges_accepted_witness :
  Datatypes.length [(1, 13); (14, 30)]
  = Datatypes.length ["1 - 13" ++ nl; " 14-30 " ++ nl] /\
  Forall (fun r => 0 <= fst r /\ 0 <= snd r) [(1, 13); (14, 30)].
Proof.
  apply (read_ranges_accepted ["1 - 13" ++ nl; " 14-30 " ++ nl]).
  reflexivity.
Defined.

(** ** The index writer *)

Lemma str_first_char (n : Z) :
  exists c r, str n = String c r /\ is_space c = false.
Proof.
  destruct n as [|p|p].
  - exists "0"%char, EmptyString. split; reflexivity.
  - rewrite str_pos. pose proof (string_of_uint_digits (Pos.to_uint p)) as Hd.
    pose proof (DecimalPos.Unsigned.to_uint_nonnil p) as Hn.
    destruct (Pos.to_uint p); [congruence | ..];
      (eexists; eexists; split; [reflexivity | reflexivity]).
  - rewrite str_neg. exists "-"%char. eexists. split; reflexivity.
Qed.

Lemma first_column_not_nl (c : ascii) (r : string) :
  Ascii.eqb c "010" = false ->
  (read_string (String c r) 1 0 =? nl)%string = false.
Proof.
  intros H. unfold read_string, slice. cbn. rewrite substring_0_0.
  cbn. now rewrite H.
Qed.

Lemma index_entry_first (n : Z) :
  (read_string (index_entry n) 1 0 =? nl)%string = false.
Proof.
  unfold index_entry, rjust.
  destruct (str_first_char n) as (c & r & E & Hc). rewrite E.
  destruct (8 - length (String c r))%nat as [|k]; cbn [spaces append].
  - apply first_column_not_nl.
    destruct (Ascii.eqb_spec c "010") as [->|_];
      [discriminate Hc | reflexivity].
  - now apply first_column_not_nl.
Qed.

Lemma is_entry_index_entry (n : Z) : is_entry (index_entry n) = true.
Proof. unfold is_entry. now rewrite index_entry_first. Qed.

Lemma is_header_index_entry (n : Z) : is_header (index_entry n) = false.
Proof. unfold is_header. now rewrite index_entry_first, andb_false_r. Qed.

Lemma is_entry_index_header (s : string) : is_entry (index_header s) = false.
Proof. reflexivity. Qed.

Lemma is_header_index_header (s : string) : is_header (index_header s) = true.
Proof. reflexivity. Qed.

(** The entries of [index_loop] count the relevant lines on from
    [atom_index]. *)
Lemma index_loop_entries (file : list string) :
  forall s i c,
  filter is_entry (index_loop s i c file)
  = map (fun k => index_entry (i + Z.of_nat k))
      (seq 1 (Datatypes.length (relevant_lines file))).
Proof.
  induction file as [|l rest IH]; intros s i c;
    cbn [index_loop relevant_lines]; [reflexivity|].
  destruct (check_line l).
  - cbv zeta. rewrite !filter_app. cbn [Datatypes.length seq map].
    rewrite IH.
    replace (filter is_entry
               (if negb (s =? pdb_line.segid (pdb_line.init l))%string
                then [index_header (pdb_line.segid (pdb_line.init l))]
                else [])) with (@nil string)
      by (destruct (negb _); reflexivity).
    match goal with
    | |- context [filter is_entry (if ?w then [nl] else [])] =>
        replace (filter is_entry (if w then [nl] else [])) with (@nil string)
          by (destruct w; reflexivity)
    end.
    cbn [filter Datatypes.app]. rewrite is_entry_index_entry.
    cbn [Datatypes.app]. f_equal.
    rewrite <- (seq_shift _ 1), map_map.
    apply map_ext. intros k. f_equal. lia.
  - destruct (l =? "")%string; [reflexivity | apply IH].
Qed.

(** The entries of the index, counted from 1. *)
Lemma index_entries_numbered (file : list string) :
  filter is_entry (fst (make_index file))
  = map (fun k => index_entry (Z.of_nat k))
      (seq 1 (Datatypes.length (relevant_lines file))).
Proof.
  unfold make_index. cbn [fst]. rewrite index_loop_entries.
  apply map_ext. intros k. reflexivity.
Qed.

(** X15: [make_index] writes one entry for every relevant line, and the
    entries are, in order, the numbers 1, 2, 3, ... in a field of 8 and a
    blank: the count goes on across groups and non-relevant lines take no
    number. *)
Theorem make_index_entries (file : list string) :
  filter is_entry (fst (make_index file))
  = map (fun k => index_entry (Z.of_nat k))
      (seq 1 (Datatypes.length (relevant_lines file))).
Proof. apply index_entries_numbered. Qed.

Lemma runs_head (l : list string) (a : string) :
  runs (a :: l) = a :: tl (runs (a :: l)).
Proof.
  revert a. induction l as [|b l IH]; intros a; [reflexivity|].
  cbn [runs]. destruct (String.eqb_spec a b) as [->|_]; [|reflexivity].
  apply IH.
Qed.

Lemma index_loop_headers (file : list string) :
  forall s i c,
  filter is_header (index_loop s i c file)
  = map index_header
      (tl (runs (s :: map (fun l => pdb_line.segid (pdb_line.init l))
                          (relevant_lines file)))).
Proof.
  induction file as [|l rest IH]; intros s i c;
    cbn [index_loop relevant_lines]; [reflexivity|].
  destruct (check_line l).
  - cbv zeta. rewrite !filter_app. cbn [map].
    match goal with
    | |- context [filter is_header (if ?w then [nl] else [])] =>
        replace (filter is_header (if w then [nl] else [])) with (@nil string)
          by (destruct w; reflexivity)
    end.
    cbn [filter Datatypes.app]. rewrite is_header_index_entry.
    cbn [Datatypes.app].
    rewrite IH. set (g := pdb_line.segid (pdb_line.init l)).
    set (segs := map _ (relevant_lines rest)).
    change (runs (s :: g :: segs))
      with (if (s =? g)%string then runs (g :: segs)
            else s :: runs (g :: segs)).
    destruct (String.eqb_spec s g) as [E|E];
      cbn [negb filter Datatypes.app tl].
    + now rewrite E.
    + rewrite (runs_head segs g) at 2. reflexivity.
  - destruct (l =? "")%string; [reflexivity | apply IH].
Qed.

(** The headers of the index, one for each run. *)
Lemma index_headers_runs (file : list string) :
  filter is_header (fst (make_index file))
  = map index_header
      (runs (map (fun l => pdb_line.segid (pdb_line.init l))
               (relevant_lines file))).
Proof.
  unfold make_index. cbn [fst]. rewrite index_loop_headers. f_equal.
  destruct (relevant_lines file) as [|l rest]; [reflexivity|].
  cbn [map].
  set (g := pdb_line.segid (pdb_line.init l)).
  set (segs := map _ rest).
  change (runs ("" :: g :: segs))
    with (if ("" =? g)%string then runs (g :: segs)
          else "" :: runs (g :: segs)).
  assert (Hg : length g = 4%nat).
  { subst g. now destruct (init_well_sized l)
      as (_ & _ & _ & _ & _ & _ & _ & _ & _ & _ & _ & _ & _ & H & _). }
  destruct g; [discriminate Hg | reflexivity].
Qed.

(** X16: [make_index] writes one group header for every run of neighbouring
    relevant lines with the same segment id, the first line included, and
    no other header. *)
Theorem make_index_headers (file : list string) :
  filter is_header (fst (make_index file))
  = map index_header
      (runs (map (fun l => pdb_line.segid (pdb_line.init l))
               (relevant_lines file))).
Proof. apply index_headers_runs. Qed.

Lemma index_loop_rows (file : list string) :
  forall s i c k,
  0 <= c <= 7 -> Z.of_nat k = c ->
  (longest_row k (index_loop s i c file) <= 8)%nat.
Proof.
  induction file as [|l rest IH]; intros s i c k Hc Hk;
    cbn [index_loop longest_row]; [lia|].
  destruct (check_line l).
  - cbv zeta.
    destruct (negb (s =? pdb_line.segid (pdb_line.init l))%string);
      cbn [Datatypes.app longest_row].
    + rewrite is_entry_index_header, is_entry_index_entry.
      cbn [Z.eqb Pos.eqb Datatypes.app longest_row].
      specialize (IH (pdb_line.segid (pdb_line.init l)) (i + 1) 1 1%nat
                    ltac:(lia) eq_refl).
      lia.
    + rewrite is_entry_index_entry.
      destruct (Z.eqb_spec (c + 1) 8) as [E|E];
        cbn [Datatypes.app longest_row].
      * change (is_entry nl) with false. cbv iota.
        specialize (IH s (i + 1) 0 0%nat ltac:(lia) eq_refl). lia.
      * apply (IH s (i + 1) (c + 1) (S k)); lia.
  - destruct (l =? "")%string; [cbn; lia | now apply IH].
Qed.

(** X17: [make_index] never writes more than 8 entries in a row: a line
    break or a group header comes after the eighth at the latest. *)
Theorem make_index_rows (file : list string) :
  (longest_row 0 (fst (make_index file)) <= 8)%nat.
Proof.
  unfold make_index. cbn [fst].
  apply (index_loop_rows file "" 0 0 0%nat); [lia | reflexivity].
Qed.

(** ** Reading back what was written *)

Lemma Z_range_forall (f : Z -> bool) (base len : Z) :
  forallb f (Z_range base len) = true ->
  forall n, base <= n < base + len -> f n = true.
Proof.
  intros H n Hn. rewrite forallb_forall in H. apply H.
  unfold Z_range. apply in_map_iff. exists (Z.to_nat (n - base)).
  split; [lia|]. apply in_seq. lia.
Qed.

Lemma init_reread (line : string) :
  let l := pdb_line.normalize line in
  (pdb_line.resnum (pdb_line.init line), pdb_line.icode (pdb_line.init line))
  = reread (read_string l 23 26) (read_string l 24 26) (read_string l 24 27)
      (read_string l 27 0).
Proof.
  intros l. pose proof (init_fields line) as Hf. cbv zeta in Hf. fold l in Hf.
  destruct Hf as (_ & _ & _ & _ & _ & _ & Hr & _ & Hi & _).
  rewrite Hr, Hi. unfold reread, pdb_line.alpha_fix.
  destruct (isalpha (read_string l 27 0)); cbn [fst snd];
    symmetry; apply surjective_pairing.
Qed.

(** The residue-number columns of a written record. *)
Lemma written_resnum_columns (a : pdb_line.t) :
  well_sized a ->
  let r := pdb_line.resnum a in
  (read_string (write charmm a) 23 26 = " " ++ substring 0 3 r /\
   read_string (write charmm a) 24 26 = substring 0 3 r /\
   read_string (write charmm a) 24 27 = r /\
   read_string (write charmm a) 27 0 = substring 3 1 r) /\
  (read_string (write pdb a) 23 26 = r /\
   read_string (write pdb a) 24 26 = substring 1 3 r /\
   read_string (write pdb a) 24 27 = substring 1 3 r ++ pdb_line.icode a /\
   read_string (write pdb a) 27 0 = pdb_line.icode a).
Proof.
  destruct a as [f1 f2 f3 f4 f5 f6 f7 f8 f9 f10 f11 f12 f13 f14 f15 f16 f17 f18].
  unfold well_sized. cbn [pdb_line.ATOM pdb_line.serial pdb_line.name
    pdb_line.altloc pdb_line.resname pdb_line.chain pdb_line.resnum
    pdb_line.icode pdb_line.x pdb_line.y pdb_line.z pdb_line.occ
    pdb_line.tempfac pdb_line.segid pdb_line.elename pdb_line.charge].
  intros (H1 & H2 & H3 & H4 & H5 & H6 & H7 & H9 & H10 & H11 & H12 & H13
          & H14 & H15 & H16 & H17).
  explode f1 H1. explode f2 H2. explode f3 H3. explode f4 H4.
  explode f5 H5. explode f6 H6. explode f7 H7. explode f9 H9.
  explode f10 H10. explode f11 H11. explode f12 H12. explode f13 H13.
  explode f14 H14. explode f15 H15. explode f16 H16. explode f17 H17.
  repeat apply conj; reflexivity.
Qed.

Lemma charmm_reread_range :
  forallb charmm_reread_ok (Z_range 10 9990) = true.
Proof. vm_compute. reflexivity. Qed.

Lemma pdb_reread_range :
  forallb pdb_reread_ok (Z_range 0 10000) = true.
Proof. vm_compute. reflexivity. Qed.

Lemma written_reread (a : pdb_line.t) (fmt : format) :
  well_sized a ->
  pdb_line.ATOM a = "ATOM  " \/ pdb_line.ATOM a = "HETATM" ->
  (pdb_line.resnum (pdb_line.init (write fmt a)),
   pdb_line.icode (pdb_line.init (write fmt a)))
  = reread (read_string (write fmt a) 23 26) (read_string (write fmt a) 24 26)
      (read_string (write fmt a) 24 27) (read_string (write fmt a) 27 0).
Proof.
  intros Hs Hk. pose proof (init_reread (write fmt a)) as H. cbv zeta in H.
  now rewrite (normalize_well_formed _ (written_well_formed a fmt Hs Hk)) in H.
Qed.

(** X18: a record written in the charmm layout with a residue counter from
    10 to 9999 is read back with the same residue number and a blank
    insertion code; with a counter from 0 to 9 the residue number is read
    back blank, columns 23-26 of the written line being blank. *)
Theorem charmm_written_reread (a : pdb_line.t) (n : Z) :
  well_sized a ->
  pdb_line.ATOM a = "ATOM  " \/ pdb_line.ATOM a = "HETATM" ->
  pdb_line.resnum a = rjust (str n) 4 ->
  (10 <= n <= 9999 ->
   pdb_line.resnum (pdb_line.init (write charmm a)) = pdb_line.resnum a /\
   pdb_line.icode (pdb_line.init (write charmm a)) = " ") /\
  (0 <= n <= 9 ->
   pdb_line.resnum (pdb_line.init (write charmm a)) = "    ").
Proof.
  intros Hs Hk Hr.
  pose proof (written_reread a charmm Hs Hk) as H.
  destruct (written_resnum_columns a Hs) as ((C1 & C2 & C3 & C4) & _).
  cbv zeta in C1, C2, C3, C4. rewrite C1, C2, C3, C4, Hr in H.
  split.
  - intros Hn.
    pose proof (Z_range_forall _ _ _ charmm_reread_range n ltac:(lia)) as Hok.
    unfold charmm_reread_ok in Hok. cbv zeta in Hok.
    destruct (reread _ _ _ _) as [r' i'].
    apply andb_prop in Hok as [E1 E2].
    apply String.eqb_eq in E1, E2. injection H as H1 H2.
    change (write charmm a) with (pdb_line.write_charmm a).
    rewrite H1, H2, Hr. now split.
  - intros Hn.
    assert (E : fst (reread (" " ++ substring 0 3 (rjust (str n) 4))
                       (substring 0 3 (rjust (str n) 4)) (rjust (str n) 4)
                       (substring 3 1 (rjust (str n) 4))) = "    ").
    { apply String.eqb_eq.
      apply (Z_range_forall
               (fun k => (fst (reread (" " ++ substring 0 3 (rjust (str k) 4))
                                 (substring 0 3 (rjust (str k) 4))
                                 (rjust (str k) 4)
                                 (substring 3 1 (rjust (str k) 4)))
                          =? "    ")%string) 0 10); [reflexivity | lia]. }
    rewrite <- E, <- H. reflexivity.
Qed.

Lemma charmm_written_reread_witness :
  (pdb_line.resnum
     (pdb_line.init (write charmm (written atom_line_81 "  42" "E001")))
   = pdb_line.resnum (written atom_line_81 "  42" "E001") /\
   pdb_line.icode
     (pdb_line.init (write charmm (written atom_line_81 "  42" "E001")))
   = " ") /\
  pdb_line.resnum (pdb_line.init (write charmm (written ala_O "   1" "E001")))
  = "    ".
Proof.
  split.
  - apply (charmm_written_reread (written atom_line_81 "  42" "E001") 42);
      try reflexivity; [repeat apply conj; reflexivity | now left | lia].
  - apply (charmm_written_reread (written ala_O "   1" "E001") 1);
      try reflexivity; [repeat apply conj; reflexivity | now left | lia].
Defined.

(** X19: a record written in the PDB.org layout with a residue counter
    from 0 to 9999 and a blank insertion code is read back with the same
    residue number and insertion code. *)
Theorem pdb_written_reread (a : pdb_line.t) (n : Z) :
  well_sized a ->
  pdb_line.ATOM a = "ATOM  " \/ pdb_line.ATOM a = "HETATM" ->
  pdb_line.resnum a = rjust (str n) 4 ->
  pdb_line.icode a = " " ->
  0 <= n <= 9999 ->
  pdb_line.resnum (pdb_line.init (write pdb a)) = pdb_line.resnum a /\
  pdb_line.icode (pdb_line.init (write pdb a)) = " ".
Proof.
  intros Hs Hk Hr Hi Hn.
  pose proof (written_reread a pdb Hs Hk) as H.
  destruct (written_resnum_columns a Hs) as (_ & (C1 & C2 & C3 & C4)).
  cbv zeta in C1, C2, C3, C4. rewrite C1, C2, C3, C4, Hr, Hi in H.
  pose proof (Z_range_forall _ _ _ pdb_reread_range n ltac:(lia)) as Hok.
  unfold pdb_reread_ok in Hok. cbv zeta in Hok.
  destruct (reread _ _ _ _) as [r' i'].
  apply andb_prop in Hok as [E1 E2].
  apply String.eqb_eq in E1, E2. injection H as H1 H2.
  change (write pdb a) with (pdb_line.write_pdb a).
  rewrite H1, H2, Hr. now split.
Qed.

Lemma pdb_written_reread_witness :
  pdb_line.resnum (pdb_line.init (write pdb (written ala_O "   1" "E001")))
  = pdb_line.resnum (written ala_O "   1" "E001") /\
  pdb_line.icode (pdb_line.init (write pdb (written ala_O "   1" "E001")))
  = " ".
Proof.
  apply (pdb_written_reread (written ala_O "   1" "E001") 1);
    try reflexivity; [repeat apply conj; reflexivity | now left | lia].
Defined.

(** ** Labels and columns *)

(** X20: different segment counters give different labels, also past 999
    where the label grows beyond four characters. *)
Theorem labels_distinct (a b : Z) :
  0 < a -> 0 < b -> a <> b -> E_label a <> E_label b.
Proof. intros Ha Hb Hab E. apply Hab. now apply E_label_inj. Qed.

Lemma labels_distinct_witness : E_label 12 <> E_label 1012.
Proof. apply labels_distinct; lia. Defined.

Lemma resnum_fits_range : forallb resnum_fits (Z_range (-999) 10999) = true.
Proof. vm_compute. reflexivity. Qed.

Lemma label_fits_range : forallb label_fits (Z_range 1 999) = true.
Proof. vm_compute. reflexivity. Qed.

Lemma written_well_sized (line r s : string) :
  length r = 4%nat -> length s = 4%nat -> well_sized (written line r s).
Proof.
  intros Hr Hs. pose proof (init_well_sized line) as H.
  unfold well_sized, written in *.
  cbn [pdb_line.ATOM pdb_line.serial pdb_line.name pdb_line.altloc
       pdb_line.resname pdb_line.chain pdb_line.resnum pdb_line.icode
       pdb_line.x pdb_line.y pdb_line.z pdb_line.occ pdb_line.tempfac
       pdb_line.segid pdb_line.elename pdb_line.charge
       pdb_line.set_elename pdb_line.set_ATOM pdb_line.set_chain
       pdb_line.set_segid pdb_line.set_resnum].
  destruct H as (H1 & H2 & H3 & H4 & H5 & H6 & H7 & H9 & H10 & H11 & H12
                 & H13 & H14 & H15 & H16 & H17).
  repeat apply conj; try assumption; reflexivity.
Qed.

(** X21: as long as the segment counter is at most 999 and the residue
    counter lies between -999 and 9999, the record an iteration writes fills
    its columns exactly, so that its line has 80 characters and the
    terminator in both layouts. *)
Theorem step_keeps_columns {FO : FloatOps} (st st' : engine_of F)
    (line : string) (a' : pdb_line.t) (fmt : format) :
  inv st ->
  step st (pdb_line.init line) = Ok (st', a') ->
  segid st' <= 999 ->
  -999 <= resnum st' <= 9999 ->
  well_sized a' /\ length (write fmt a') = 81%nat.
Proof.
  intros Hinv E Hs Hn.
  destruct (step_inv _ _ _ _ Hinv E) as [Hinv' Ha].
  destruct (step_written _ _ _ _ E) as (r & s & Hw).
  assert (Hr : length (pdb_line.resnum a') = 4%nat).
  { rewrite <- Ha, (inv_resnum st' Hinv').
    pose proof (Z_range_forall _ _ _ resnum_fits_range (resnum st')
                  ltac:(lia)) as H.
    now apply Nat.eqb_eq in H. }
  assert (Hl : length (pdb_line.segid a') = 4%nat).
  { rewrite <- Ha.
    destruct (inv_label st' Hinv') as [->|[->|(k & Hk & ->)]];
      try reflexivity.
    pose proof (Z_range_forall _ _ _ label_fits_range k ltac:(lia)) as H.
    now apply Nat.eqb_eq in H. }
  assert (Hws : well_sized a').
  { rewrite Hw in Hr, Hl |- *. apply written_well_sized; assumption. }
  split; [exact Hws|].
  now destruct (written_all_columns a' fmt Hws) as (H & _).
Qed.

Lemma step_keeps_columns_witness :
  exists st' a',
    step (FO:=binary64) after_ala (pdb_line.init gly_N_far) = Ok (st', a') /\
    well_sized a' /\ length (write charmm a') = 81%nat.
Proof.
  destruct (step (FO:=binary64) after_ala (pdb_line.init gly_N_far))
    as [[st' a']|e] eqn:E;
    [|vm_compute in E; discriminate E].
  exists st', a'. split; [reflexivity|].
  apply (step_keeps_columns (FO:=binary64) after_ala st' gly_N_far a' charmm
           after_ala_inv E).
  - vm_compute in E. injection E as <- _. cbn. lia.
  - vm_compute in E. injection E as <- _. cbn. lia.
Defined.

(** ** The index of the file written *)

Lemma split_lines_one (l rest : string) :
  one_line l = true -> split_lines (l ++ rest) = l :: split_lines rest.
Proof.
  induction l as [|c r IH]; cbn [one_line split_lines append];
    [discriminate|].
  destruct (Ascii.eqb c "010").
  - intros H. apply String.eqb_eq in H. subst r. reflexivity.
  - intros H. now rewrite (IH H).
Qed.

(** A file written line by line is read back line by line. *)
Lemma split_lines_file (writes : list string) :
  Forall (fun l => one_line l = true) writes ->
  split_lines (file_text writes) = writes.
Proof.
  induction 1 as [|l ls Hl _ IH]; [reflexivity|].
  cbn [file_text fold_right]. rewrite (split_lines_one _ _ Hl).
  f_equal. exact IH.
Qed.

Lemma relevant_written (recs : list pdb_line.t) (fmt : format) :
  Forall (fun a => well_sized a /\ pdb_line.ATOM a = "ATOM  ") recs ->
  relevant_lines (map (write fmt) recs) = map (write fmt) recs /\
  map (fun l => pdb_line.segid (pdb_line.init l)) (map (write fmt) recs)
  = map pdb_line.segid recs.
Proof.
  induction 1 as [|a recs [Hs Hk] _ [IH1 IH2]]; [split; reflexivity|].
  destruct (parse_written_fields a fmt Hs (or_introl Hk))
    as (Hc & _ & _ & _ & _ & _ & _ & _ & _ & _ & _ & _ & Hseg & _).
  cbn [map relevant_lines]. rewrite Hc, IH1, IH2, Hseg. split; reflexivity.
Qed.

(** X22: when [make_compatible] returns and every record it wrote fills
    its columns on one line, the index written with [-n] from the output
    file has one group header for each run of neighbouring records written
    with the same segment id, and the entries 1, 2, ... up to the number of
    relevant lines of the input. *)
Theorem index_of_output {FO : FloatOps} (input : list string) (fmt : format) :
  snd (emitted input) = Ok 1 ->
  Forall (fun a => well_sized a /\ one_line (write fmt a) = true)
         (fst (emitted input)) ->
  exists written,
    snd (convert_and_index input fmt None true) = Some (written, 1) /\
    filter is_header written
      = map index_header (runs (map pdb_line.segid (fst (emitted input)))) /\
    filter is_entry written
      = map (fun k => index_entry (Z.of_nat k))
          (seq 1 (Datatypes.length (relevant_lines input))).
Proof.
  intros Hok Hall.
  pose proof (emitted_cleared input) as Hcl.
  pose proof (emitted_length input Hok) as Hlen.
  unfold convert_and_index, make_compatible.
  destruct (emitted input) as [recs r]. cbn [fst snd] in *. subst r.
  assert (H1 : Forall (fun l => one_line l = true) (map (write fmt) recs)).
  { apply Forall_map. eapply Forall_impl; [|exact Hall]. now intros a [_ H]. }
  assert (H2 : Forall (fun a => well_sized a /\ pdb_line.ATOM a = "ATOM  ")
                 recs).
  { apply Forall_forall. intros a Ha.
    rewrite Forall_forall in Hall, Hcl.
    split; [apply (Hall a Ha) | apply (Hcl a Ha)]. }
  destruct (relevant_written recs fmt H2) as [R1 R2].
  rewrite (split_lines_file _ H1).
  exists (fst (make_index (map (write fmt) recs))).
  split; [reflexivity|]. split.
  - rewrite index_headers_runs, R1, R2. reflexivity.
  - rewrite index_entries_numbered, R1, length_map, Hlen. reflexivity.
Qed.

Lemma index_of_output_witness :
  exists written,
    snd (convert_and_index [ala_N; ala_O; gly_N_far] pdb None true)
    = Some (written, 1) /\
    filter is_header written
      = map index_header
          (runs (map pdb_line.segid
                   (fst (emitted [ala_N; ala_O; gly_N_far])))) /\
    filter is_entry written
      = map (fun k => index_entry (Z.of_nat k))
          (seq 1 (Datatypes.length
                    (relevant_lines [ala_N; ala_O; gly_N_far]))).
Proof.
  apply (index_of_output (FO:=binary64) [ala_N; ala_O; gly_N_far] pdb).
  - vm_compute. reflexivity.
  - vm_compute. repeat constructor.
Defined.
